(** * Leneda integration: the data-synchronisation coordinator

    A shallow embedding of [custom_components/leneda/coordinator.py] and of
    the parts of [const.py] it reads.

    Conventions of the embedding:
    - a [datetime] is an instant in POSIX seconds (UTC), an integer;
      [datetime.timestamp()] and [dt_util.utc_from_timestamp] are the
      identity on it, [timedelta(days=1)] is 86400;
    - a Python [float] is an IEEE binary64 number, one of Rocq's primitive
      floats; the operations the program uses on floats form the class
      [PyFloat], whose instance is binary64, so that what does not depend
      on the arithmetic is proved once for any arithmetic;
    - a Python [str] is a [string] of 8-bit characters, [str.lower] folds
      the ASCII capitals;
    - a [dict] keyed by strings is a [gmap];
    - an [async] method is a computation in the monad [M]: it threads the
      observable world (the recorder's tables and the trace of effects) and
      either returns or raises. *)

From Stdlib Require Import ZArith QArith Lqa String Ascii List Sorted Lia.
From Stdlib Require Import PrimFloat SpecFloat FloatOps.
From stdpp Require Import gmap strings list.

Set Default Proof Using "Type".

(** ** Python strings *)

Module Str.

Definition is_upper (c : ascii) : bool :=
  let n := nat_of_ascii c in (65 <=? n)%nat && (n <=? 90)%nat.

Definition is_lower (c : ascii) : bool :=
  let n := nat_of_ascii c in (97 <=? n)%nat && (n <=? 122)%nat.

Definition is_digit (c : ascii) : bool :=
  let n := nat_of_ascii c in (48 <=? n)%nat && (n <=? 57)%nat.

(** The character class [[a-z0-9]]. *)
Definition in_a_z0_9 (c : ascii) : bool := is_lower c || is_digit c.

Definition lower_char (c : ascii) : ascii :=
  if is_upper c then ascii_of_nat (nat_of_ascii c + 32) else c.

Fixpoint map (f : ascii -> ascii) (s : string) : string :=
  match s with
  | EmptyString => EmptyString
  | String c s' => String (f c) (map f s')
  end.

(** [s.lower()] *)
Definition lower (s : string) : string := map lower_char s.

(** [re.sub(r"[^a-z0-9]", "_", s)]: every character outside the class is
    replaced, one for one. *)
Definition sub_not_a_z0_9 (s : string) : string :=
  map (fun c => if in_a_z0_9 c then c else "_"%char) s.

Definition chars (s : string) : list ascii := list_ascii_of_string s.

End Str.

(** ** const.py *)

Definition DOMAIN : string := "leneda".

Definition datetime := Z.
Definition timedelta_days (n : Z) : Z := (n * 86400)%Z.

(** [datetime(2000, 1, 1, 0, 0, 0, tzinfo=timezone.utc)] *)
Definition STATISTICS_PERIOD_START : datetime := 946684800%Z.

(** The members of [leneda.obis_codes.ObisCode] that [SENSOR_TYPES] names. *)
Inductive ObisCode : Set :=
| ELEC_CONSUMPTION_ACTIVE
| ELEC_CONSUMPTION_REACTIVE
| ELEC_CONSUMPTION_COVERED_LAYER1
| ELEC_CONSUMPTION_COVERED_LAYER2
| ELEC_CONSUMPTION_COVERED_LAYER3
| ELEC_CONSUMPTION_COVERED_LAYER4
| ELEC_CONSUMPTION_REMAINING
| ELEC_PRODUCTION_ACTIVE
| ELEC_PRODUCTION_REACTIVE
| ELEC_PRODUCTION_SHARED_LAYER1
| ELEC_PRODUCTION_SHARED_LAYER2
| ELEC_PRODUCTION_SHARED_LAYER3
| ELEC_PRODUCTION_SHARED_LAYER4
| ELEC_PRODUCTION_REMAINING
| GAS_CONSUMPTION_VOLUME
| GAS_CONSUMPTION_STANDARD_VOLUME
| GAS_CONSUMPTION_ENERGY.

#[global] Instance ObisCode_eq_dec : EqDecision ObisCode.
Proof. solve_decision. Defined.

Definition ObisCode_all : list ObisCode :=
  [ ELEC_CONSUMPTION_ACTIVE; ELEC_CONSUMPTION_REACTIVE;
    ELEC_CONSUMPTION_COVERED_LAYER1; ELEC_CONSUMPTION_COVERED_LAYER2;
    ELEC_CONSUMPTION_COVERED_LAYER3; ELEC_CONSUMPTION_COVERED_LAYER4;
    ELEC_CONSUMPTION_REMAINING; ELEC_PRODUCTION_ACTIVE;
    ELEC_PRODUCTION_REACTIVE; ELEC_PRODUCTION_SHARED_LAYER1;
    ELEC_PRODUCTION_SHARED_LAYER2; ELEC_PRODUCTION_SHARED_LAYER3;
    ELEC_PRODUCTION_SHARED_LAYER4; ELEC_PRODUCTION_REMAINING;
    GAS_CONSUMPTION_VOLUME; GAS_CONSUMPTION_STANDARD_VOLUME;
    GAS_CONSUMPTION_ENERGY ].

Definition ObisCode_index (o : ObisCode) : nat :=
  match o with
  | ELEC_CONSUMPTION_ACTIVE => 0 | ELEC_CONSUMPTION_REACTIVE => 1
  | ELEC_CONSUMPTION_COVERED_LAYER1 => 2 | ELEC_CONSUMPTION_COVERED_LAYER2 => 3
  | ELEC_CONSUMPTION_COVERED_LAYER3 => 4 | ELEC_CONSUMPTION_COVERED_LAYER4 => 5
  | ELEC_CONSUMPTION_REMAINING => 6 | ELEC_PRODUCTION_ACTIVE => 7
  | ELEC_PRODUCTION_REACTIVE => 8 | ELEC_PRODUCTION_SHARED_LAYER1 => 9
  | ELEC_PRODUCTION_SHARED_LAYER2 => 10 | ELEC_PRODUCTION_SHARED_LAYER3 => 11
  | ELEC_PRODUCTION_SHARED_LAYER4 => 12 | ELEC_PRODUCTION_REMAINING => 13
  | GAS_CONSUMPTION_VOLUME => 14 | GAS_CONSUMPTION_STANDARD_VOLUME => 15
  | GAS_CONSUMPTION_ENERGY => 16
  end%nat.

Lemma ObisCode_index_lookup (o : ObisCode) :
  ObisCode_all !! ObisCode_index o = Some o.
Proof. by destruct o. Qed.

#[global] Instance ObisCode_countable : Countable ObisCode :=
  inj_countable ObisCode_index (fun n => ObisCode_all !! n) ObisCode_index_lookup.

Inductive SensorDeviceClass : Set := ENERGY | REACTIVE_ENERGY | GAS.
Inductive SensorStateClass : Set := TOTAL_INCREASING.

Record SensorTypeConfig : Set := {
  obis_code : ObisCode;
  device_class : option SensorDeviceClass;
  state_class : SensorStateClass
}.

Definition mk_sensor_type (o : ObisCode) (d : option SensorDeviceClass)
  : SensorTypeConfig :=
  {| obis_code := o; device_class := d; state_class := TOTAL_INCREASING |}.

Definition SENSOR_TYPES : gmap string SensorTypeConfig :=
  list_to_map
    [ ("electricity_consumption_active",
        mk_sensor_type ELEC_CONSUMPTION_ACTIVE (Some ENERGY));
      ("electricity_consumption_reactive",
        mk_sensor_type ELEC_CONSUMPTION_REACTIVE (Some REACTIVE_ENERGY));
      ("electricity_consumption_covered_layer1",
        mk_sensor_type ELEC_CONSUMPTION_COVERED_LAYER1 (Some ENERGY));
      ("electricity_consumption_covered_layer2",
        mk_sensor_type ELEC_CONSUMPTION_COVERED_LAYER2 (Some ENERGY));
      ("electricity_consumption_covered_layer3",
        mk_sensor_type ELEC_CONSUMPTION_COVERED_LAYER3 (Some ENERGY));
      ("electricity_consumption_covered_layer4",
        mk_sensor_type ELEC_CONSUMPTION_COVERED_LAYER4 (Some ENERGY));
      ("electricity_consumption_remaining",
        mk_sensor_type ELEC_CONSUMPTION_REMAINING (Some ENERGY));
      ("electricity_production_active",
        mk_sensor_type ELEC_PRODUCTION_ACTIVE (Some ENERGY));
      ("electricity_production_reactive",
        mk_sensor_type ELEC_PRODUCTION_REACTIVE (Some REACTIVE_ENERGY));
      ("electricity_production_shared_layer1",
        mk_sensor_type ELEC_PRODUCTION_SHARED_LAYER1 (Some ENERGY));
      ("electricity_production_shared_layer2",
        mk_sensor_type ELEC_PRODUCTION_SHARED_LAYER2 (Some ENERGY));
      ("electricity_production_shared_layer3",
        mk_sensor_type ELEC_PRODUCTION_SHARED_LAYER3 (Some ENERGY));
      ("electricity_production_shared_layer4",
        mk_sensor_type ELEC_PRODUCTION_SHARED_LAYER4 (Some ENERGY));
      ("electricity_production_remaining",
        mk_sensor_type ELEC_PRODUCTION_REMAINING (Some ENERGY));
      ("gas_consumption_volume",
        mk_sensor_type GAS_CONSUMPTION_VOLUME (Some GAS));
      ("gas_consumption_standard_volume",
        mk_sensor_type GAS_CONSUMPTION_STANDARD_VOLUME None);
      ("gas_consumption_energy",
        mk_sensor_type GAS_CONSUMPTION_ENERGY (Some ENERGY)) ].

(** ** Statistic identity *)

Definition _create_statistic_id (metering_point obis : string) : string :=
  let clean_mp := Str.sub_not_a_z0_9 (Str.lower metering_point) in
  let clean_obis := Str.sub_not_a_z0_9 (Str.lower obis) in
  DOMAIN +:+ ":" +:+ clean_mp +:+ "_" +:+ clean_obis.

(** ** Python floats *)

(** The operations on floats that the program and the built-in [sum] it
    calls perform. *)
Class PyFloat (V : Type) := {
  fzero : V;               (* 0.0, and the int 0 that [sum()] starts from *)
  fadd : V -> V -> V;      (* + *)
  fsub : V -> V -> V;      (* - *)
  fabs : V -> V;           (* fabs *)
  fge : V -> V -> bool;    (* >= *)
  fnonzero : V -> bool;    (* the truth value of a C double: [x != 0.0] *)
  fisfinite : V -> bool    (* isfinite *)
}.

(** IEEE binary64, as CPython computes. A comparison with NaN is false,
    so NaN is not equal to zero. *)
#[global] Instance PyFloat_binary64 : PyFloat float :=
  {| fzero := 0%float;
     fadd := PrimFloat.add;
     fsub := PrimFloat.sub;
     fabs := PrimFloat.abs;
     fge := fun x y => PrimFloat.leb y x;
     fnonzero := fun x => negb (PrimFloat.eqb x 0%float);
     fisfinite := PrimFloat.is_finite |}.

(** ** Exceptions *)

(** What [LenedaClient.get_aggregated_metering_data] can raise. *)
Inductive ClientError : Set :=
| UnauthorizedException
| ForbiddenException
| MeteringPointNotFoundException
| OtherClientError.

Inductive Exn : Set :=
| ClientExn (e : ClientError)
| ConfigEntryAuthFailed
| IndexError
| KeyError.

Inductive Result (A : Type) : Type :=
| Ok (a : A)
| Raise (e : Exn).
Arguments Ok {A} a.
Arguments Raise {A} e.

#[global] Instance Result_ret : MRet Result := fun _ a => Ok a.
#[global] Instance Result_bind : MBind Result := fun _ _ f m =>
  match m with Ok a => f a | Raise e => Raise e end.

(** [l[0]] *)
Definition index0 {A} (l : list A) : Result A :=
  match l with
  | x :: _ => Ok x
  | [] => Raise IndexError
  end.

(** [d[k]] *)
Definition getitem {A} (d : gmap string A) (k : string) : Result A :=
  match d !! k with
  | Some x => Ok x
  | None => Raise KeyError
  end.

(** ** The reconciliation engine *)

Section Engine.
Context {V : Type} `{PyFloat V}.

(** A point of [result.aggregated_time_series]. *)
Record AggregatedMeteringValue := {
  started_at : datetime;
  value : V
}.

(** [StatisticData(start=..., state=..., sum=...)] *)
Record StatisticData := {
  sd_start : datetime;
  sd_state : V;
  sd_sum : V
}.

(** A row as the recorder returns it to a query that asks for the sum
    column, which is the query [_get_existing_statistics] makes:
    [row["start"]], [row["end"]] and [row["sum"]], the last [None] when
    the recorder holds no sum for the row. A row without the ["sum"] key,
    on which [row["sum"]] raises [KeyError], is not represented; the rows
    of [get_last_statistics], which are asked without value columns,
    carry [None] in that field and only their ["end"] is read. *)
Record StatisticsRow := {
  row_start : Z;
  row_end : Z;
  row_sum : option V
}.

(** The body of the [for point in time_series] loop. *)
Fixpoint prepare_loop (last_stats_time : option Z) (last_sum : V)
    (time_series : list AggregatedMeteringValue) : list StatisticData :=
  match time_series with
  | [] => []
  | point :: rest =>
      if match last_stats_time with
         | Some t => (started_at point <=? t)%Z
         | None => false
         end
      then prepare_loop last_stats_time last_sum rest
      else
        let value := value point in
        let last_sum := fadd last_sum value in
        {| sd_start := started_at point; sd_state := value; sd_sum := last_sum |}
          :: prepare_loop last_stats_time last_sum rest
  end.

(** [existing_stats and statistic_id in existing_stats] holds exactly when
    the key is present. *)
Definition _prepare_statistics (statistic_id : string)
    (time_series : list AggregatedMeteringValue)
    (existing_stats : gmap string (list StatisticsRow))
  : Result (list StatisticData) :=
  last_stats_time ←
    match existing_stats !! statistic_id with
    | Some rows => row ← index0 rows; mret (Some (row_end row))
    | None => mret None
    end;
  last_sum ←
    match existing_stats !! statistic_id with
    | Some rows =>
        row ← index0 rows;
        mret (match row_sum row with Some s => s | None => fzero end)
    | None => mret fzero
    end;
  mret (prepare_loop last_stats_time last_sum time_series).

(** The loop of the built-in [sum] over floats, as CPython computes it
    from version 3.12 on (the Home Assistant releases that have config
    subentries run on 3.13): the floats are added in order into
    [f_result] while the rounding error of each addition is accumulated
    in the compensation [c] (Neumaier's summation); when the items are
    exhausted, [c] is added to the total if it is finite and not zero. *)
Fixpoint sum_floats (f_result c : V) (items : list V) : V :=
  match items with
  | [] => if fnonzero c && fisfinite c then fadd f_result c else f_result
  | x :: rest =>
      let t := fadd f_result x in
      let c :=
        if fge (fabs f_result) (fabs x)
        then fadd c (fadd (fsub f_result t) x)
        else fadd c (fadd (fsub x t) f_result) in
      sum_floats t c rest
  end.

(** [sum(float(pt.value) for pt in series)]. [sum] starts from the int
    [0]; adding the first float to it gives the float [0.0 + x], and the
    float loop takes over from there. On an empty series [sum] returns
    the int [0]: [fzero] stands for it, and [_get_current_total] returns
    before the sum in that case. *)
Definition py_sum (series : list AggregatedMeteringValue) : V :=
  match series with
  | [] => fzero
  | pt :: rest => sum_floats (fadd fzero (value pt)) fzero (List.map value rest)
  end.

End Engine.

Arguments AggregatedMeteringValue V : clear implicits.
Arguments StatisticData V : clear implicits.
Arguments StatisticsRow V : clear implicits.

(** ** The remote service *)

Inductive Granularity : Set := Hour | Infinite.
Inductive Mode : Set := Accumulation.

(** The arguments of one [client.get_aggregated_metering_data] call. *)
Record Request : Set := {
  req_metering_point : string;
  req_obis : ObisCode;
  req_start_date : datetime;
  req_end_date : datetime;
  req_granularity : Granularity;
  req_mode : Mode
}.

#[global] Instance Granularity_eq_dec : EqDecision Granularity.
Proof. solve_decision. Defined.
#[global] Instance Mode_eq_dec : EqDecision Mode.
Proof. solve_decision. Defined.
#[global] Instance Request_eq_dec : EqDecision Request.
Proof. solve_decision. Defined.

(** Messages of [_LOGGER.error]; the debug messages are not kept. *)
Inductive ErrorRecord : Set :=
| UnknownSensorType (sensor_type metering_point : string)
| AuthenticationError (err : ClientError).

(** ** The coordinator *)

Section Coordinator.
Context {V : Type} `{PyFloat V}.

Inductive Response :=
| Data (aggregated_time_series : list (AggregatedMeteringValue V))
| Failure (e : ClientError).

(** What a tick reads from outside: the clock, the remote service, and the
    string value of each [ObisCode] member (the enum is a [str] subclass
    declared in the client library). The clock is read once per tick:
    [now] stands for every [datetime.now()] of the tick and [year_start]
    for [datetime(current_year, 1, 1)]. *)
Record Env := {
  now : datetime;
  year_start : datetime;
  api : Request -> Response;
  obis_value : ObisCode -> string
}.

(** The effects a tick leaves behind, most recent first. *)
Inductive Event :=
| ApiRequest (r : Request)
| AddExternalStatistics (statistic_id : string)
    (statistics : list (StatisticData V))
| LogError (r : ErrorRecord).

(** The recorder keeps, per statistic id, the hourly rows of the series,
    oldest first. *)
Record World := {
  recorder : gmap string (list (StatisticsRow V));
  trace : list Event
}.

Definition M (A : Type) : Type := World -> Result A * World.

#[global] Instance M_ret : MRet M := fun _ a w => (Ok a, w).
#[global] Instance M_bind : MBind M := fun _ _ f m w =>
  match m w with
  | (Ok a, w') => f a w'
  | (Raise e, w') => (Raise e, w')
  end.

Definition raise {A} (e : Exn) : M A := fun w => (Raise e, w).

Definition lift {A} (r : Result A) : M A := fun w => (r, w).

(** [try: body except ...: handler] *)
Definition try_except {A} (body : M A) (handler : Exn -> M A) : M A :=
  fun w =>
    match body w with
    | (Ok a, w') => (Ok a, w')
    | (Raise e, w') => handler e w'
    end.

Definition emit (ev : Event) : M unit := fun w =>
  (Ok tt, {| recorder := recorder w; trace := ev :: trace w |}).

(** *** The recorder (Home Assistant's statistics store)

    The recorder is outside the repository; the three entry points the
    coordinator calls are modelled on its hourly table: a row that starts
    at [t] ends at [t + 3600], the rows of a series are kept and returned
    in ascending order of start, an import replaces the row that has the
    same start, and it is applied at once. *)

Definition hour_row (d : StatisticData V) : StatisticsRow V :=
  {| row_start := sd_start d;
     row_end := (sd_start d + 3600)%Z;
     row_sum := Some (sd_sum d) |}.

(** Insert a row at its place; a row with the same start is replaced. *)
Fixpoint upsert (r : StatisticsRow V) (rows : list (StatisticsRow V))
  : list (StatisticsRow V) :=
  match rows with
  | [] => [r]
  | x :: rest =>
      if (row_start r <? row_start x)%Z then r :: x :: rest
      else if (row_start r =? row_start x)%Z then r :: rest
      else x :: upsert r rest
  end.

Definition import_statistics (statistics : list (StatisticData V))
    (rows : list (StatisticsRow V)) : list (StatisticsRow V) :=
  fold_left (fun acc d => upsert (hour_row d) acc) statistics rows.

(** [async_add_external_statistics(hass, metadata, statistics)]; of the
    metadata only the statistic id is kept. The call is modelled for the
    imports the recorder accepts: Home Assistant raises
    [HomeAssistantError] instead when the statistic id is not a valid one
    (a doubled underscore, or an underscore next to the colon or at the
    end) or when an entry does not start on the hour, and that rejection
    is outside this model. What is stated below about a computation that
    imports is stated for accepted imports. *)
Definition async_add_external_statistics (statistic_id : string)
    (statistics : list (StatisticData V)) : M unit := fun w =>
  (Ok tt,
   {| recorder :=
        <[statistic_id :=
            import_statistics statistics
              (default [] (recorder w !! statistic_id))]> (recorder w);
      trace := AddExternalStatistics statistic_id statistics :: trace w |}).

(** [get_last_statistics(hass, 1, statistic_id, True, set())]: the most
    recent row of the series, with no value columns, under its id; the
    empty dict when the series has no row. *)
Definition get_last_statistics (statistic_id : string)
  : M (gmap string (list (StatisticsRow V))) := fun w =>
  (Ok match last (default [] (recorder w !! statistic_id)) with
      | Some r =>
          {[ statistic_id :=
               [ {| row_start := row_start r; row_end := row_end r;
                    row_sum := None |} ] ]}
      | None => ∅
      end, w).

(** [statistics_during_period(hass, start_time, None, {statistic_id},
    "hour", None, {"sum"})]: every row of the series that starts at or
    after [start_time], oldest first, under its id; the empty dict when
    there is none. *)
Definition statistics_during_period (start_time : datetime)
    (statistic_id : string) : M (gmap string (list (StatisticsRow V))) :=
  fun w =>
  (Ok match filter (fun r => (start_time <= row_start r)%Z)
              (default [] (recorder w !! statistic_id)) with
      | [] => ∅
      | rows => {[ statistic_id := rows ]}
      end, w).

Variable env : Env.

(** [await self.client.get_aggregated_metering_data(...)] *)
Definition get_aggregated_metering_data (r : Request)
  : M (list (AggregatedMeteringValue V)) :=
  emit (ApiRequest r);;
  match api env r with
  | Data series => mret series
  | Failure e => raise (ClientExn e)
  end.

Definition _get_statistics_start_date (statistic_id : string) : M datetime :=
  last_stat ← get_last_statistics statistic_id;
  if decide (last_stat = ∅) then mret STATISTICS_PERIOD_START
  else
    rows ← lift (getitem last_stat statistic_id);
    row ← lift (index0 rows);
    mret (row_end row).

Definition _fetch_hourly_data (metering_point : string) (obis : ObisCode)
    (start_date end_date : datetime) : M (list (AggregatedMeteringValue V)) :=
  get_aggregated_metering_data
    {| req_metering_point := metering_point; req_obis := obis;
       req_start_date := start_date; req_end_date := end_date;
       req_granularity := Hour; req_mode := Accumulation |}.

Definition _get_existing_statistics (statistic_id : string)
  : M (gmap string (list (StatisticsRow V))) :=
  statistics_during_period STATISTICS_PERIOD_START statistic_id.

(** The display name and the unit of the metadata come from
    [get_obis_info] and [UNIT_TO_AGGREGATED_UNIT]; they do not reach the
    rows and are left out. *)
Definition _store_statistics (statistic_id metering_point : string)
    (obis : ObisCode) (statistics : list (StatisticData V)) : M unit :=
  async_add_external_statistics statistic_id statistics.

Definition _process_and_store_statistics (statistic_id metering_point : string)
    (obis : ObisCode) (time_series : list (AggregatedMeteringValue V))
  : M unit :=
  stats ← _get_existing_statistics statistic_id;
  statistics ← lift (_prepare_statistics statistic_id time_series stats);
  match statistics with
  | [] => mret tt
  | _ => _store_statistics statistic_id metering_point obis statistics
  end.

Definition _update_statistics (metering_point : string) (obis : ObisCode)
  : M unit :=
  let statistic_id := _create_statistic_id metering_point (obis_value env obis) in
  start_date ← _get_statistics_start_date statistic_id;
  let end_date := now env in
  if (end_date - timedelta_days 1 <? start_date)%Z then mret tt
  else
    let start_date := (start_date - timedelta_days 1)%Z in
    result ← _fetch_hourly_data metering_point obis start_date end_date;
    match result with
    | [] => mret tt
    | _ => _process_and_store_statistics statistic_id metering_point obis result
    end.

Definition _get_current_total (metering_point : string) (obis : ObisCode)
  : M (option V) :=
  let start_date := year_start env in
  let end_date := now env in
  result ← get_aggregated_metering_data
    {| req_metering_point := metering_point; req_obis := obis;
       req_start_date := start_date; req_end_date := end_date;
       req_granularity := Infinite; req_mode := Accumulation |};
  match result with
  | [] => mret None
  | _ => mret (Some (py_sum result))
  end.

(** [meter_data["values"]] *)
Definition MeterData : Type := gmap ObisCode (option V).

(** The [for sensor_type in selected_sensors] loop of
    [_process_metering_point]. *)
Fixpoint process_sensors (metering_point : string)
    (selected_sensors : list string) (meter_data : MeterData) : M MeterData :=
  match selected_sensors with
  | [] => mret meter_data
  | sensor_type :: rest =>
      match SENSOR_TYPES !! sensor_type with
      | None =>
          emit (LogError (UnknownSensorType sensor_type metering_point));;
          process_sensors metering_point rest meter_data
      | Some cfg =>
          let obis := obis_code cfg in
          _update_statistics metering_point obis;;
          current_total ← _get_current_total metering_point obis;
          process_sensors metering_point rest (<[obis := current_total]> meter_data)
      end
  end.

Definition _process_metering_point (metering_point : string)
    (selected_sensors : list string) : M MeterData :=
  process_sensors metering_point selected_sensors ∅.

(** The [for metering_point, selected_sensors in
    self.metering_points.items()] loop of [_async_update_data]. *)
Fixpoint update_all (items : list (string * list string))
    (data : gmap string MeterData) : M (gmap string MeterData) :=
  match items with
  | [] => mret data
  | (metering_point, selected_sensors) :: rest =>
      meter_data ← _process_metering_point metering_point selected_sensors;
      update_all rest (<[metering_point := meter_data]> data)
  end.

(** [metering_points] is [self.metering_points.items()], in dict order. *)
Definition _async_update_data (metering_points : list (string * list string))
  : M (gmap string MeterData) :=
  try_except (update_all metering_points ∅)
    (fun e =>
       match e with
       | ClientExn UnauthorizedException =>
           emit (LogError (AuthenticationError UnauthorizedException));;
           raise ConfigEntryAuthFailed
       | _ => raise e
       end).

End Coordinator.

Arguments Response V : clear implicits.
Arguments Env V : clear implicits.
Arguments Event V : clear implicits.
Arguments World V : clear implicits.
Arguments M V A : clear implicits.
Arguments MeterData V : clear implicits.

(** ** Dicts that are iterated

    A Python dict keeps its keys in insertion order; assigning to a key
    that is present replaces the value where it stands. *)

Fixpoint dict_setitem {A} (k : string) (v : A) (d : list (string * A))
  : list (string * A) :=
  match d with
  | [] => [(k, v)]
  | (k', v') :: rest =>
      if String.eqb k' k then (k, v) :: rest
      else (k', v') :: dict_setitem k v rest
  end.

(** ** coordinator.py: the configured metering points *)

(** [subentry.data] of a metering-point subentry. *)
Record SubentryData : Set := {
  sub_metering_point : string;
  sub_sensors : list string
}.

(** [subentries] is [config_entry.subentries.values()]; the result is
    [self.metering_points.items()]. *)
Definition _initialize_metering_points (subentries : list SubentryData)
  : list (string * list string) :=
  fold_left
    (fun metering_points subentry =>
       dict_setitem (sub_metering_point subentry) (sub_sensors subentry)
         metering_points)
    subentries [].

(** ** const.py: [SENSOR_TYPES.items()], in source order *)

Definition SENSOR_TYPES_items : list (string * SensorTypeConfig) :=
    [ ("electricity_consumption_active",
        mk_sensor_type ELEC_CONSUMPTION_ACTIVE (Some ENERGY));
      ("electricity_consumption_reactive",
        mk_sensor_type ELEC_CONSUMPTION_REACTIVE (Some REACTIVE_ENERGY));
      ("electricity_consumption_covered_layer1",
        mk_sensor_type ELEC_CONSUMPTION_COVERED_LAYER1 (Some ENERGY));
      ("electricity_consumption_covered_layer2",
        mk_sensor_type ELEC_CONSUMPTION_COVERED_LAYER2 (Some ENERGY));
      ("electricity_consumption_covered_layer3",
        mk_sensor_type ELEC_CONSUMPTION_COVERED_LAYER3 (Some ENERGY));
      ("electricity_consumption_covered_layer4",
        mk_sensor_type ELEC_CONSUMPTION_COVERED_LAYER4 (Some ENERGY));
      ("electricity_consumption_remaining",
        mk_sensor_type ELEC_CONSUMPTION_REMAINING (Some ENERGY));
      ("electricity_production_active",
        mk_sensor_type ELEC_PRODUCTION_ACTIVE (Some ENERGY));
      ("electricity_production_reactive",
        mk_sensor_type ELEC_PRODUCTION_REACTIVE (Some REACTIVE_ENERGY));
      ("electricity_production_shared_layer1",
        mk_sensor_type ELEC_PRODUCTION_SHARED_LAYER1 (Some ENERGY));
      ("electricity_production_shared_layer2",
        mk_sensor_type ELEC_PRODUCTION_SHARED_LAYER2 (Some ENERGY));
      ("electricity_production_shared_layer3",
        mk_sensor_type ELEC_PRODUCTION_SHARED_LAYER3 (Some ENERGY));
      ("electricity_production_shared_layer4",
        mk_sensor_type ELEC_PRODUCTION_SHARED_LAYER4 (Some ENERGY));
      ("electricity_production_remaining",
        mk_sensor_type ELEC_PRODUCTION_REMAINING (Some ENERGY));
      ("gas_consumption_volume",
        mk_sensor_type GAS_CONSUMPTION_VOLUME (Some GAS));
      ("gas_consumption_standard_volume",
        mk_sensor_type GAS_CONSUMPTION_STANDARD_VOLUME None);
      ("gas_consumption_energy",
        mk_sensor_type GAS_CONSUMPTION_ENERGY (Some ENERGY)) ].

(** ** config_flow.py: the sensors detected by a probe *)

(** The inner loop of [async_step_probe]: the first sensor type of
    [SENSOR_TYPES] whose code is [obis], if there is one. *)
Fixpoint first_sensor_type (obis : ObisCode)
    (items : list (string * SensorTypeConfig)) : option string :=
  match items with
  | [] => None
  | (sensor_type, cfg) :: rest =>
      if decide (obis_code cfg = obis) then Some sensor_type
      else first_sensor_type obis rest
  end.

(** The outer loop: [detected_sensors] for [supported_obis_codes]. *)
Definition detected_sensors (supported_obis_codes : list ObisCode)
  : list string :=
  omap (fun obis => first_sensor_type obis SENSOR_TYPES_items)
    supported_obis_codes.

(** ** diagnostics.py *)

(** ["#" * n] *)
Fixpoint hashes (n : nat) : string :=
  match n with
  | O => EmptyString
  | S n' => String "#" (hashes n')
  end.

Definition anonymize_key (key : string) : string :=
  if (String.length key <=? 6)%nat then key
  else substring 0 6 key +:+ hashes (String.length key - 6).

(** The dict comprehension over [coordinator_data.items()]; [None] stands
    for a [coordinator.data] that is not a dict and is passed as it is. *)
Definition anonymized_coordinator_data {A}
    (coordinator_data : option (list (string * A)))
  : option (list (string * A)) :=
  match coordinator_data with
  | Some items =>
      Some (fold_left (fun d '(mp, value) => dict_setitem (anonymize_key mp) value d)
              items [])
  | None => None
  end.

(** * Vocabulary of the properties *)

(** ** Statistic identity *)

(** The characters an identity is made of, the separator apart. *)
Definition id_char (c : ascii) : bool :=
  Str.in_a_z0_9 c || Ascii.eqb c "_".

(** The specification's wording of the cleaning, character by character:
    lower-case, then replace what is outside [[a-z0-9]]. *)
Definition clean_char (c : ascii) : ascii :=
  let c' := Str.lower_char c in
  if Str.in_a_z0_9 c' then c' else "_"%char.

(** ** The reconciliation engine *)

Section EngineVocabulary.
Context {V : Type} `{PyFloat V}.

Local Abbreviation Point := (AggregatedMeteringValue V).
Local Abbreviation Entry := (StatisticData V).
Local Abbreviation Row := (StatisticsRow V).

(** The entries for a sequence of accepted points: each carries its
    period start, its value, and the running sum up to and including it. *)
Fixpoint running_entries (running_sum : V) (accepted : list Point)
  : list Entry :=
  match accepted with
  | [] => []
  | p :: rest =>
      let s := fadd running_sum (value p) in
      {| sd_start := started_at p; sd_state := value p; sd_sum := s |}
        :: running_entries s rest
  end.

(** A point passes the cutoff when there is none or it starts after it. *)
Definition after_cutoff (cutoff : option Z) (p : Point) : bool :=
  match cutoff with
  | Some t => negb (started_at p <=? t)%Z
  | None => true
  end.

(** The cutoff and the initial sum as the engine reads them: from the
    first row that [existing_stats] holds for the series. *)
Definition read_cutoff (existing_stats : gmap string (list Row))
    (statistic_id : string) : option Z :=
  match existing_stats !! statistic_id with
  | Some (row :: _) => Some (row_end row)
  | _ => None
  end.

Definition read_sum (existing_stats : gmap string (list Row))
    (statistic_id : string) : V :=
  match existing_stats !! statistic_id with
  | Some (row :: _) => default fzero (row_sum row)
  | _ => fzero
  end.

End EngineVocabulary.

(** ** Binary64 numbers and the rationals they stand for *)









(** ** The coordinator *)

Section CoordinatorVocabulary.
Context {V : Type} `{PyFloat V}.
Variable env : Env V.

Local Abbreviation Row := (StatisticsRow V).

(** The planner's baseline: the end of the most recent stored row of the
    series, or the start of tracked history. *)
Definition baseline (rec : gmap string (list Row)) (statistic_id : string)
  : datetime :=
  match last (default [] (rec !! statistic_id)) with
  | Some r => row_end r
  | None => STATISTICS_PERIOD_START
  end.

Definition hourly_request (metering_point : string) (obis : ObisCode)
    (start_date end_date : datetime) : Request :=
  {| req_metering_point := metering_point; req_obis := obis;
     req_start_date := start_date; req_end_date := end_date;
     req_granularity := Hour; req_mode := Accumulation |}.

(** What [_get_existing_statistics] hands to the engine. *)
Definition existing (rec : gmap string (list Row)) (statistic_id : string)
  : gmap string (list Row) :=
  match filter (fun r => (STATISTICS_PERIOD_START <= row_start r)%Z)
          (default [] (rec !! statistic_id)) with
  | [] => ∅
  | rows => {[ statistic_id := rows ]}
  end.

Definition logged (ev : Event V) (w : World V) : World V :=
  {| recorder := recorder w; trace := ev :: trace w |}.

Definition stored (statistic_id : string) (statistics : list (StatisticData V))
    (w : World V) : World V :=
  {| recorder :=
       <[statistic_id :=
           import_statistics statistics
             (default [] (recorder w !! statistic_id))]> (recorder w);
     trace := AddExternalStatistics statistic_id statistics :: trace w |}.

(** The recorder after the imports of a trace segment (most recent
    first), applied oldest first; requests and messages leave it as it is. *)
Fixpoint replay (evs : list (Event V)) (rec : gmap string (list Row))
  : gmap string (list Row) :=
  match evs with
  | [] => rec
  | AddExternalStatistics statistic_id statistics :: earlier =>
      let rec' := replay earlier rec in
      <[statistic_id :=
          import_statistics statistics (default [] (rec' !! statistic_id))]> rec'
  | _ :: earlier => replay earlier rec
  end.

(** Every request of the trace segment was answered with data. *)
Definition served (evs : list (Event V)) : Prop :=
  forall r, In (ApiRequest r) evs -> exists series, api env r = Data series.

(** A computation only adds to the trace, and the recorder changes by the
    imports it traces; it returns after requests that were all served, or
    raises the failure of its last request, all the earlier ones served,
    and nothing after it. *)
Definition transparent {A} (m : M V A) : Prop :=
  forall w, exists evs,
    trace (m w).2 = evs ++ trace w
    /\ recorder (m w).2 = replay evs (recorder w)
    /\ match (m w).1 with
       | Ok _ => served evs
       | Raise (ClientExn e) =>
           exists r before,
             evs = ApiRequest r :: before
             /\ api env r = Failure e
             /\ served before
       | Raise _ => False
       end.

End CoordinatorVocabulary.

(** ** Scenarios, on binary64 *)

Module Scenario.

(** 2026-01-01T00:00:00Z; the tick runs two hours later. *)
Definition t0 : datetime := 1767225600%Z.
Definition tick_time : datetime := (t0 + 7200)%Z.

Definition point (t : datetime) (v : float) : AggregatedMeteringValue float :=
  {| started_at := t; value := v |}.

Definition entry (t : datetime) (v s : float) : StatisticData float :=
  {| sd_start := t; sd_state := v; sd_sum := s |}.

Definition row (t : datetime) (s : float) : StatisticsRow float :=
  {| row_start := t; row_end := (t + 3600)%Z; row_sum := Some s |}.

Definition request (mp : string) (obis : ObisCode) (start_date end_date : datetime)
    (g : Granularity) : Request :=
  {| req_metering_point := mp; req_obis := obis;
     req_start_date := start_date; req_end_date := end_date;
     req_granularity := g; req_mode := Accumulation |}.

Definition codes (o : ObisCode) : string :=
  match o with
  | ELEC_CONSUMPTION_ACTIVE => "E_CONS_ACTIVE"
  | ELEC_CONSUMPTION_REACTIVE => "E_CONS_REACTIVE"
  | _ => "OTHER"
  end.

Definition env_of (service : Request -> Response float) : Env float :=
  {| now := tick_time; year_start := t0; api := service; obis_value := codes |}.

Definition empty_world : World float := {| recorder := ∅; trace := [] |}.

Definition two_points : list (AggregatedMeteringValue float) :=
  [point t0 1.5; point (t0 + 3600)%Z 2.0].

(** The remote service answers every query with the two points. *)
Definition healthy : Env float := env_of (fun _ => Data two_points).

(** The second channel's requests are rejected as unauthorized. *)
Definition unauthorized_second : Env float :=
  env_of (fun r =>
    match req_obis r with
    | ELEC_CONSUMPTION_REACTIVE => Failure UnauthorizedException
    | _ => Data two_points
    end).

(** The first channel's requests are forbidden. *)
Definition forbidden_first : Env float :=
  env_of (fun r =>
    match req_obis r with
    | ELEC_CONSUMPTION_ACTIVE => Failure ForbiddenException
    | _ => Data two_points
    end).

Definition two_channels : list (string * list string) :=
  [("LU000001",
    ["electricity_consumption_active"; "electricity_consumption_reactive"])].

(** [_create_statistic_id "LU000001" "E_CONS_ACTIVE"] *)
Definition active_id : string := "leneda:lu000001_e_cons_active".

(** One reconciliation pass of the series against the recorder. *)
Definition reconcile (ts : list (AggregatedMeteringValue float))
    (w : World float) : World float :=
  (_process_and_store_statistics active_id "LU000001"
     ELEC_CONSUMPTION_ACTIVE ts w).2.

(** The [k]-th hour of the day, worth 1.0. *)
Definition hour (k : Z) : AggregatedMeteringValue float :=
  point (t0 + k * 3600)%Z 1.0.

Definition rejected_request : Request :=
  request "LU000001" ELEC_CONSUMPTION_REACTIVE
    (STATISTICS_PERIOD_START - 86400)%Z tick_time Hour.

Definition forbidden_request : Request :=
  request "LU000001" ELEC_CONSUMPTION_ACTIVE
    (STATISTICS_PERIOD_START - 86400)%Z tick_time Hour.

(** What the first channel leaves in the trace when it is served. *)
Definition first_channel_served : list (Event float) :=
  [ ApiRequest
      (request "LU000001" ELEC_CONSUMPTION_ACTIVE t0 tick_time Infinite);
    AddExternalStatistics active_id
      [entry t0 1.5 1.5; entry (t0 + 3600)%Z 2.0 3.5];
    ApiRequest
      (request "LU000001" ELEC_CONSUMPTION_ACTIVE
         (STATISTICS_PERIOD_START - 86400)%Z tick_time Hour) ].

End Scenario.

(** ** Frames and result maps *)

Section TickVocabulary.
Context {V : Type} `{PyFloat V}.
Variable env : Env V.

(** A computation leaves the rows of a series as they are. *)
Definition keeps (statistic_id : string) {A} (m : M V A) : Prop :=
  forall w, recorder (m w).2 !! statistic_id = recorder w !! statistic_id.

(** The series of the configured channels: one for each selected sensor
    type that [SENSOR_TYPES] holds, of each metering point. *)
Definition configured_series (metering_points : list (string * list string))
    (statistic_id : string) : Prop :=
  exists metering_point selected_sensors sensor_type cfg,
    In (metering_point, selected_sensors) metering_points
    /\ In sensor_type selected_sensors
    /\ SENSOR_TYPES !! sensor_type = Some cfg
    /\ statistic_id
       = _create_statistic_id metering_point (obis_value env (obis_code cfg)).

End TickVocabulary.

(** The codes of the selected sensor types that [SENSOR_TYPES] holds. *)
Definition known_codes (selected_sensors : list string) : gset ObisCode :=
  list_to_set (omap (fun s => obis_code <$> SENSOR_TYPES !! s) selected_sensors).

(** ** Quiet computations *)

Section QuietVocabulary.
Context {V : Type} `{PyFloat V}.

(** An effect that is a message or a request for a live total. *)
Definition live_or_log (ev : Event V) : Prop :=
  match ev with
  | LogError _ => True
  | ApiRequest r => req_granularity r = Infinite
  | AddExternalStatistics _ _ => False
  end.

(** Run on a world whose recorder is [rec], the computation leaves the
    recorder as it is and adds only messages and live-total requests. *)
Definition quiet (rec : gmap string (list (StatisticsRow V))) {A} (m : M V A)
  : Prop :=
  forall w, recorder w = rec ->
    recorder (m w).2 = rec
    /\ exists evs, trace (m w).2 = evs ++ trace w /\ Forall live_or_log evs.

End QuietVocabulary.

(** ** Further scenarios *)

Section MoreScenarios.
Import Scenario.

(** The recorder's answer when hour 0 is stored with sum 5. *)
Definition stored_hour_0 : gmap string (list (StatisticsRow float)) :=
  {[ active_id := [row t0 5] ]}.

(** The result map of a tick over [two_channels] when every request is
    answered with [two_points]. *)
Definition healthy_result : gmap string (MeterData float) :=
  {[ "LU000001" :=
       {[ ELEC_CONSUMPTION_ACTIVE := Some 3.5%float;
          ELEC_CONSUMPTION_REACTIVE := Some 3.5%float ]} ]}.

(** Hour 0 of both channels of LU000001 is stored. *)
Definition fresh_world : World float :=
  {| recorder :=
       {[ active_id := [row t0 1.5];
          "leneda:lu000001_e_cons_reactive" := [row t0 1.5] ]};
     trace := [] |}.

(** The binary64 numbers that Python writes [0.1], [0.2],
    [0.30000000000000004] and [1e308]. *)
Definition tenth : float := 0x1.999999999999ap-4.



(** Ten consecutive hours worth 0.1 each. *)
Definition ten_tenths : list (AggregatedMeteringValue float) :=
  List.map (fun k => point (t0 + Z.of_nat k * 3600)%Z tenth) (seq 0 10).



End MoreScenarios.

(** * Properties *)

(** ** Statistic identity *)

Module StrFacts.

Lemma chars_append (a b : string) :
  Str.chars (a +:+ b) = Str.chars a ++ Str.chars b.
Proof.
  induction a as [|c a IH]; simpl; [done|].
  unfold Str.chars in *. simpl. by rewrite IH.
Qed.

Lemma chars_map (f : ascii -> ascii) (s : string) :
  Str.chars (Str.map f s) = List.map f (Str.chars s).
Proof.
  induction s as [|c s IH]; simpl; [done|].
  unfold Str.chars in *. simpl. by rewrite IH.
Qed.

Lemma length_map (f : ascii -> ascii) (s : string) :
  String.length (Str.map f s) = String.length s.
Proof. induction s; simpl; congruence. Qed.

End StrFacts.

Lemma clean_chars (s : string) :
  Str.chars (Str.sub_not_a_z0_9 (Str.lower s)) = List.map clean_char (Str.chars s).
Proof.
  unfold Str.sub_not_a_z0_9, Str.lower.
  rewrite !StrFacts.chars_map, List.map_map. done.
Qed.

Lemma clean_char_id_char (c : ascii) : id_char (clean_char c) = true.
Proof.
  unfold clean_char, id_char.
  destruct (Str.in_a_z0_9 (Str.lower_char c)) eqn:E; [by rewrite E|done].
Qed.

Lemma id_char_not_colon (c : ascii) : id_char c = true -> c <> ":"%char.
Proof. intros Hc ->. by vm_compute in Hc. Qed.

Lemma count_colon_id_chars (l : list ascii) :
  Forall (fun c => id_char c = true) l ->
  count_occ ascii_dec l ":"%char = 0%nat.
Proof.
  intros Hl. apply count_occ_not_In. intros Hin.
  rewrite List.Forall_forall in Hl.
  apply Hl in Hin. by apply id_char_not_colon in Hin.
Qed.

(** C7. The statistic identity is a function of the pair (equal pairs give
    equal identities); it is the namespace, one colon, the cleaned metering
    point, an underscore and the cleaned code, where cleaning lower-cases
    each character and replaces it by an underscore when it is then outside
    a-z0-9; so every character but the colon is a lower-case letter, a digit
    or an underscore, and the colon occurs exactly once. *)
Theorem C7_statistic_id_shape (metering_point obis : string) :
  (forall mp' obis',
      (mp', obis') = (metering_point, obis) ->
      _create_statistic_id mp' obis' = _create_statistic_id metering_point obis)
  /\ Str.chars (_create_statistic_id metering_point obis)
     = Str.chars DOMAIN ++ ":"%char
         :: List.map clean_char (Str.chars metering_point)
         ++ "_"%char :: List.map clean_char (Str.chars obis)
  /\ Forall (fun c => id_char c = true) (Str.chars DOMAIN)
  /\ Forall (fun c => id_char c = true)
       (List.map clean_char (Str.chars metering_point)
          ++ "_"%char :: List.map clean_char (Str.chars obis))
  /\ count_occ ascii_dec (Str.chars (_create_statistic_id metering_point obis))
       ":"%char = 1%nat.
Proof.
  assert (Hshape : Str.chars (_create_statistic_id metering_point obis)
     = Str.chars DOMAIN ++ ":"%char
         :: List.map clean_char (Str.chars metering_point)
         ++ "_"%char :: List.map clean_char (Str.chars obis)).
  { unfold _create_statistic_id. cbv zeta.
    rewrite !StrFacts.chars_append, !clean_chars.
    reflexivity. }
  assert (Hbody : Forall (fun c => id_char c = true)
       (List.map clean_char (Str.chars metering_point)
          ++ "_"%char :: List.map clean_char (Str.chars obis))).
  { apply Forall_app; split; [|constructor; [done|]];
      apply List.Forall_forall; intros c Hc; apply in_map_iff in Hc;
      destruct Hc as (c0 & <- & _); apply clean_char_id_char. }
  assert (Hdom : Forall (fun c => id_char c = true) (Str.chars DOMAIN)).
  { vm_compute. repeat constructor. }
  split; [|split; [|split; [|split]]]; try done.
  - intros mp' obis' [= -> ->]. done.
  - rewrite Hshape, count_occ_app, (count_colon_id_chars _ Hdom).
    rewrite count_occ_cons_eq by done.
    by rewrite (count_colon_id_chars _ Hbody).
Qed.

(** ** The reconciliation engine *)

Section EngineFacts.
Context {V : Type} `{PyFloat V}.

Local Abbreviation Point := (AggregatedMeteringValue V).
Local Abbreviation Entry := (StatisticData V).
Local Abbreviation Row := (StatisticsRow V).

Lemma prepare_loop_running (cutoff : option Z) (s : V) (ts : list Point) :
  prepare_loop cutoff s ts
  = running_entries s (List.filter (after_cutoff cutoff) ts).
Proof.
  revert s. induction ts as [|p ts IH]; intros s; simpl; [done|].
  destruct cutoff as [t|]; simpl.
  - destruct (started_at p <=? t)%Z; simpl; [apply IH|]. by rewrite IH.
  - by rewrite IH.
Qed.

(** The engine returns unless the series is present with no row, and
    then it is the running-sum pass over the points after the cutoff. *)
Lemma prepare_statistics_running (statistic_id : string) (ts : list Point)
    (existing_stats : gmap string (list Row)) :
  existing_stats !! statistic_id <> Some [] ->
  _prepare_statistics statistic_id ts existing_stats
  = Ok (running_entries (read_sum existing_stats statistic_id)
          (List.filter (after_cutoff (read_cutoff existing_stats statistic_id)) ts)).
Proof.
  intros Hne. unfold _prepare_statistics, read_sum, read_cutoff.
  destruct (existing_stats !! statistic_id) as [[|row rows]|]; [done| |];
    simpl; unfold mret, Result_ret; by rewrite prepare_loop_running.
Qed.

Lemma prepare_statistics_no_row (statistic_id : string) (ts : list Point)
    (existing_stats : gmap string (list Row)) :
  existing_stats !! statistic_id = Some [] ->
  _prepare_statistics statistic_id ts existing_stats = Raise IndexError.
Proof. intros Hr. unfold _prepare_statistics. by rewrite Hr. Qed.

Lemma running_entries_copy (s : V) (ps : list Point) :
  Forall2 (fun (e : Entry) (p : Point) =>
             sd_start e = started_at p /\ sd_state e = value p)
    (running_entries s ps) ps.
Proof.
  revert s. induction ps as [|p ps IH]; intros s; simpl; constructor; auto.
Qed.

Lemma running_entries_length (s : V) (ps : list Point) :
  length (running_entries s ps) = length ps.
Proof. revert s. induction ps; intros; simpl; auto. Qed.


Lemma running_entries_snoc (s : V) (ps : list Point) (p : Point) :
  running_entries s (ps ++ [p])
  = running_entries s ps
      ++ [ {| sd_start := started_at p; sd_state := value p;
              sd_sum := fadd (fold_left fadd (List.map value ps) s) (value p) |} ].
Proof.
  revert s. induction ps as [|q ps IH]; intros s; simpl; [done|].
  by rewrite IH.
Qed.


(** C10. When the series is present and the row the engine reads has no
    sum, the points that start at or before that row's end are discarded
    and the others are emitted in order with sums that restart from
    zero: the first accepted point's sum is zero plus its value. *)
Theorem C10_missing_sum_restarts_from_zero (statistic_id : string)
    (ts : list Point) (existing_stats : gmap string (list Row))
    (row : Row) (rows : list Row) :
  existing_stats !! statistic_id = Some (row :: rows) ->
  row_sum row = None ->
  _prepare_statistics statistic_id ts existing_stats
  = Ok (running_entries fzero
          (List.filter (fun p => negb (started_at p <=? row_end row)%Z) ts)).
Proof.
  intros Hrows Hsum.
  rewrite prepare_statistics_running by (rewrite Hrows; done).
  unfold read_sum, read_cutoff. by rewrite Hrows, Hsum.
Qed.

End EngineFacts.

(** *** Cumulative sums, on binary64 *)

Section Binary64Sums.

Local Abbreviation Point := (AggregatedMeteringValue float).
Local Abbreviation Entry := (StatisticData float).
Local Abbreviation Row := (StatisticsRow float).










End Binary64Sums.

(** ** The coordinator *)

Section CoordinatorFacts.
Context {V : Type} `{PyFloat V}.
Variable env : Env V.

Local Abbreviation Row := (StatisticsRow V).

Lemma bind_run {A B} (m : M V A) (f : A -> M V B) (w : World V) :
  (m ≫= f) w
  = match m w with
    | (Ok a, w') => f a w'
    | (Raise e, w') => (Raise e, w')
    end.
Proof. reflexivity. Qed.

Lemma ret_run {A} (a : A) (w : World V) :
  (mret a : M V A) w = (Ok a, w).
Proof. reflexivity. Qed.

Lemma get_statistics_start_date_run (statistic_id : string) (w : World V) :
  _get_statistics_start_date statistic_id w
  = (Ok (baseline (recorder w) statistic_id), w).
Proof.
  unfold _get_statistics_start_date, baseline.
  rewrite bind_run. unfold get_last_statistics.
  destruct (last _) as [r|].
  - destruct (decide _) as [Hempty|_].
    + by apply map_non_empty_singleton in Hempty.
    + rewrite bind_run. unfold lift, getitem.
      by rewrite lookup_singleton_eq.
  - by destruct (decide _).
Qed.

Lemma existing_has_row (rec : gmap string (list Row)) (statistic_id : string) :
  existing rec statistic_id !! statistic_id <> Some [].
Proof.
  unfold existing. destruct (filter _ _) as [|r rows].
  - by rewrite lookup_empty.
  - by rewrite lookup_singleton_eq.
Qed.

(** Reconciliation against the recorder: the engine always returns, and
    the entries are imported unless there is none. *)
Lemma process_and_store_run (statistic_id metering_point : string)
    (obis : ObisCode) (ts : list (AggregatedMeteringValue V)) (w : World V) :
  exists out,
    _prepare_statistics statistic_id ts (existing (recorder w) statistic_id)
    = Ok out
    /\ _process_and_store_statistics statistic_id metering_point obis ts w
       = (Ok tt, match out with [] => w | _ => stored statistic_id out w end).
Proof.
  eexists. split.
  { apply prepare_statistics_running, existing_has_row. }
  unfold _process_and_store_statistics, _get_existing_statistics.
  rewrite bind_run. unfold statistics_during_period. fold (existing (recorder w) statistic_id).
  rewrite bind_run. unfold lift.
  rewrite prepare_statistics_running by apply existing_has_row.
  by destruct (running_entries _ _).
Qed.

(** C3. With the baseline the end of the last stored row of the series,
    or the start of tracked history when it has none: when now minus one
    day is before the baseline the update returns at once and the world
    (recorder and trace) is unchanged; otherwise its first effect is the
    hourly request over the window from the baseline minus one day to
    now, and it makes no other request. *)
Theorem C3_fetch_window (metering_point : string) (obis : ObisCode)
    (w : World V) :
  let statistic_id := _create_statistic_id metering_point (obis_value env obis) in
  let b := baseline (recorder w) statistic_id in
  ((now env - 86400 < b)%Z ->
     _update_statistics env metering_point obis w = (Ok tt, w))
  /\ (~ (now env - 86400 < b)%Z ->
       exists after,
         trace (_update_statistics env metering_point obis w).2
         = after
             ++ ApiRequest
                  (hourly_request metering_point obis (b - 86400)%Z (now env))
             :: trace w
         /\ forall r, ~ In (ApiRequest r) after).
Proof.
  intros statistic_id b.
  unfold _update_statistics. fold statistic_id.
  rewrite bind_run, get_statistics_start_date_run. fold b.
  change (timedelta_days 1) with 86400%Z.
  split; intros Hb.
  - apply Z.ltb_lt in Hb. by rewrite Hb.
  - apply Z.ltb_nlt in Hb. rewrite Hb.
    rewrite bind_run. unfold _fetch_hourly_data, get_aggregated_metering_data.
    fold (hourly_request metering_point obis (b - 86400)%Z (now env)).
    rewrite bind_run. unfold emit at 1.
    destruct (api env _) as [[|p ts]|e]; rewrite ?ret_run; cbv beta iota.
    + exists []. split; [done|]. intros r [].
    + match goal with
      | |- context [_process_and_store_statistics ?i ?m ?o ?s ?w1] =>
          destruct (process_and_store_run i m o s w1) as (out & _ & ->)
      end.
      destruct out as [|o out]; simpl.
      * exists []. split; [done|]. intros r [].
      * eexists [_]. split; [done|]. intros r [Hr|[]]. discriminate.
    + exists []. split; [done|]. intros r [].
Qed.

End CoordinatorFacts.

(** ** Failures during a tick *)

Section TickFacts.
Context {V : Type} `{PyFloat V}.
Variable env : Env V.

Lemma served_nil : served env [].
Proof. intros r []. Qed.

Lemma served_app (a b : list (Event V)) :
  served env a -> served env b -> served env (a ++ b).
Proof. intros Ha Hb r Hr. apply in_app_or in Hr as [Hr|Hr]; eauto. Qed.

Lemma served_cons_other (ev : Event V) (evs : list (Event V)) :
  (forall r, ev <> ApiRequest r) -> served env evs -> served env (ev :: evs).
Proof. intros Hev Hevs r [Hr|Hr]; [by destruct (Hev r)|eauto]. Qed.

Lemma replay_app (a b : list (Event V))
    (rec : gmap string (list (StatisticsRow V))) :
  replay (a ++ b) rec = replay a (replay b rec).
Proof.
  induction a as [|ev a IH]; simpl; [done|].
  destruct ev; by rewrite IH.
Qed.

Lemma transparent_ret {A} (a : A) : transparent env (mret a : M V A).
Proof. intros w. exists []. split; [done|]. split; [done|apply served_nil]. Qed.

Lemma transparent_bind {A B} (m : M V A) (f : A -> M V B) :
  transparent env m -> (forall a, transparent env (f a)) -> transparent env (m ≫= f).
Proof.
  intros Hm Hf w. rewrite bind_run.
  destruct (Hm w) as (evs1 & Ht1 & Hs1 & Hr1).
  destruct (m w) as [[a|e] w1]; simpl in *.
  - destruct (Hf a w1) as (evs2 & Ht2 & Hs2 & Hr2).
    exists (evs2 ++ evs1).
    split; [by rewrite Ht2, Ht1, app_assoc|].
    split; [by rewrite Hs2, Hs1, replay_app|].
    destruct (f a w1) as [[b|[e| | |]] w2]; simpl in *; try done.
    + by apply served_app.
    + destruct Hr2 as (r & before & -> & Hr & Hb).
      exists r, (before ++ evs1). split; [done|]. split; [done|].
      by apply served_app.
  - exists evs1. by split.
Qed.

Lemma transparent_log (r : ErrorRecord) : transparent env (emit (LogError r)).
Proof.
  intros w. exists [LogError r]. split; [done|]. split; [done|].
  apply served_cons_other; [done|apply served_nil].
Qed.

Lemma transparent_request (r : Request) :
  transparent env (get_aggregated_metering_data env r).
Proof.
  intros w. unfold get_aggregated_metering_data. rewrite bind_run. simpl.
  destruct (api env r) as [series|e] eqn:Hr; simpl.
  - exists [ApiRequest r]. split; [done|]. split; [done|].
    intros r' [[= <-]|[]]. eauto.
  - exists [ApiRequest r]. split; [done|]. split; [done|].
    exists r, []. split; [done|]. split; [done|apply served_nil].
Qed.

Lemma transparent_process_and_store (statistic_id metering_point : string)
    (obis : ObisCode) (ts : list (AggregatedMeteringValue V)) :
  transparent env (_process_and_store_statistics statistic_id metering_point obis ts).
Proof.
  intros w.
  destruct (process_and_store_run statistic_id metering_point obis ts w)
    as (out & _ & ->).
  destruct out as [|o out]; simpl.
  - exists []. split; [done|]. split; [done|apply served_nil].
  - eexists [_]. split; [done|]. split; [done|].
    apply served_cons_other; [done|apply served_nil].
Qed.

Lemma transparent_update_statistics (metering_point : string) (obis : ObisCode) :
  transparent env (_update_statistics env metering_point obis).
Proof.
  unfold _update_statistics. apply transparent_bind.
  - intros w. rewrite get_statistics_start_date_run.
    exists []. split; [done|]. split; [done|apply served_nil].
  - intros start_date. destruct (_ <? _)%Z; [apply transparent_ret|].
    apply transparent_bind; [apply transparent_request|].
    intros [|p ts]; [apply transparent_ret|apply transparent_process_and_store].
Qed.

Lemma transparent_get_current_total (metering_point : string) (obis : ObisCode) :
  transparent env (_get_current_total env metering_point obis).
Proof.
  unfold _get_current_total. apply transparent_bind; [apply transparent_request|].
  intros [|p ts]; apply transparent_ret.
Qed.

Lemma transparent_process_sensors (metering_point : string)
    (selected_sensors : list string) (meter_data : MeterData V) :
  transparent env (process_sensors env metering_point selected_sensors meter_data).
Proof.
  revert meter_data.
  induction selected_sensors as [|s rest IH]; intros meter_data; simpl.
  - apply transparent_ret.
  - destruct (SENSOR_TYPES !! s) as [cfg|].
    + apply transparent_bind; [apply transparent_update_statistics|].
      intros _. apply transparent_bind; [apply transparent_get_current_total|].
      intros total. apply IH.
    + apply transparent_bind; [apply transparent_log|].
      intros _. apply IH.
Qed.

Lemma transparent_update_all (items : list (string * list string))
    (data : gmap string (MeterData V)) :
  transparent env (update_all env items data).
Proof.
  revert data. induction items as [|[mp sensors] rest IH]; intros data; simpl.
  - apply transparent_ret.
  - apply transparent_bind; [apply transparent_process_sensors|].
    intros meter_data. apply IH.
Qed.

(** How a tick ends: with the result map, every request served; with
    [ConfigEntryAuthFailed], after a request that was rejected as
    unauthorized and the error message, nothing else following; or with
    another failure of the client, unhandled, straight after the request
    that met it. In each case the recorder holds the imports traced. *)
Lemma async_update_data_outcome (metering_points : list (string * list string))
    (w : World V) :
  exists evs,
    trace (_async_update_data env metering_points w).2 = evs ++ trace w
    /\ recorder (_async_update_data env metering_points w).2
       = replay evs (recorder w)
    /\ match (_async_update_data env metering_points w).1 with
       | Ok _ => served env evs
       | Raise ConfigEntryAuthFailed =>
           exists r before,
             evs = LogError (AuthenticationError UnauthorizedException)
                     :: ApiRequest r :: before
             /\ api env r = Failure UnauthorizedException
             /\ served env before
       | Raise (ClientExn e) =>
           e <> UnauthorizedException
           /\ exists r before,
                evs = ApiRequest r :: before
                /\ api env r = Failure e
                /\ served env before
       | Raise _ => False
       end.
Proof.
  unfold _async_update_data, try_except.
  destruct (transparent_update_all metering_points ∅ w) as (evs & Ht & Hs & Hr).
  destruct (update_all env metering_points ∅ w) as [[data|[e| | |]] w1];
    simpl in *; try done.
  - by exists evs.
  - destruct Hr as (r & before & -> & Hr & Hb).
    destruct e; simpl.
    + exists (LogError (AuthenticationError UnauthorizedException)
                :: ApiRequest r :: before).
      split; [by rewrite Ht|]. split; [done|]. by exists r, before.
    + eexists. split; [done|]. split; [done|]. split; [done|]. by exists r, before.
    + eexists. split; [done|]. split; [done|]. split; [done|]. by exists r, before.
    + eexists. split; [done|]. split; [done|]. split; [done|]. by exists r, before.
Qed.

Lemma served_not_failure (evs : list (Event V)) (r : Request) (e : ClientError) :
  served env evs -> In (ApiRequest r) evs -> api env r = Failure e -> False.
Proof. intros Hs Hr He. destruct (Hs r Hr) as [series Hd]. congruence. Qed.

End TickFacts.

(** ** Claims about a tick *)

Section TickClaims.
Context {V : Type} `{PyFloat V}.
Variable env : Env V.

Lemma process_sensors_app (metering_point : string) (pre post : list string)
    (meter_data : MeterData V) (w : World V) :
  process_sensors env metering_point (pre ++ post) meter_data w
  = match process_sensors env metering_point pre meter_data w with
    | (Ok meter_data', w') => process_sensors env metering_point post meter_data' w'
    | (Raise e, w') => (Raise e, w')
    end.
Proof.
  revert meter_data w. induction pre as [|s pre IH]; intros meter_data w; simpl.
  - done.
  - destruct (SENSOR_TYPES !! s) as [cfg|]; rewrite !bind_run.
    + destruct (_update_statistics _ _ _ _) as [[[]|e] w1]; [|done].
      rewrite !bind_run.
      destruct (_get_current_total _ _ _ _) as [[total|e] w2]; [|done].
      apply IH.
    + simpl. apply IH.
Qed.

(** C4 (amended). When a request of the tick is rejected as unauthorized,
    the tick raises [ConfigEntryAuthFailed] and returns no result map;
    the rejected request is the last one made, followed only by the error
    message; every earlier request of the tick was served, and the
    recorder holds what those earlier channels imported: nothing is
    appended after the failure and nothing is rolled back. *)
Theorem C4_unauthorized_aborts_tick
    (metering_points : list (string * list string)) (w : World V)
    (req : Request) (evs : list (Event V)) :
  trace (_async_update_data env metering_points w).2 = evs ++ trace w ->
  In (ApiRequest req) evs ->
  api env req = Failure UnauthorizedException ->
  (_async_update_data env metering_points w).1 = Raise ConfigEntryAuthFailed
  /\ exists before,
       evs = LogError (AuthenticationError UnauthorizedException)
               :: ApiRequest req :: before
       /\ served env before
       /\ recorder (_async_update_data env metering_points w).2
          = replay before (recorder w).
Proof.
  intros Ht Hin Hreq.
  destruct (async_update_data_outcome env metering_points w)
    as (evs' & Ht' & Hs & Hr).
  rewrite Ht in Ht'. apply app_inv_tail in Ht'. subst evs'.
  destruct (_async_update_data env metering_points w).1 as [data|[e| | |]];
    try done.
  - by destruct (served_not_failure env evs req _ Hr Hin Hreq).
  - destruct Hr as (Hne & r & before & -> & Hr & Hb).
    destruct Hin as [[= ->]|Hin]; [congruence|].
    by destruct (served_not_failure env before req _ Hb Hin Hreq).
  - destruct Hr as (r & before & -> & Hr & Hb).
    split; [done|]. exists before.
    destruct Hin as [[=]|[[= ->]|Hin]]; [done|].
    by destruct (served_not_failure env before req _ Hb Hin Hreq).
Qed.

(** C5 (amended). When a request of the tick fails with access forbidden
    or not found (any failure of the client but unauthorized), the
    coordinator neither catches nor logs it: the tick raises that same
    failure to the host and returns no result map; the failing request
    is its last effect, so no later channel is fetched or reconciled;
    every earlier request of the tick was served and the recorder holds
    what those earlier channels imported. *)
Theorem C5_forbidden_propagates
    (metering_points : list (string * list string)) (w : World V)
    (req : Request) (e : ClientError) (evs : list (Event V)) :
  e <> UnauthorizedException ->
  trace (_async_update_data env metering_points w).2 = evs ++ trace w ->
  In (ApiRequest req) evs ->
  api env req = Failure e ->
  (_async_update_data env metering_points w).1 = Raise (ClientExn e)
  /\ exists before,
       evs = ApiRequest req :: before
       /\ served env before
       /\ recorder (_async_update_data env metering_points w).2
          = replay before (recorder w).
Proof.
  intros Hne Ht Hin Hreq.
  destruct (async_update_data_outcome env metering_points w)
    as (evs' & Ht' & Hs & Hr).
  rewrite Ht in Ht'. apply app_inv_tail in Ht'. subst evs'.
  destruct (_async_update_data env metering_points w).1 as [data|[e'| | |]];
    try done.
  - by destruct (served_not_failure env evs req _ Hr Hin Hreq).
  - destruct Hr as (_ & r & before & -> & Hr & Hb).
    destruct Hin as [[= ->]|Hin].
    + assert (e' = e) as -> by congruence. split; [done|]. by exists before.
    + by destruct (served_not_failure env before req _ Hb Hin Hreq).
  - destruct Hr as (r & before & -> & Hr & Hb).
    destruct Hin as [[=]|[[= ->]|Hin]]; [congruence|].
    by destruct (served_not_failure env before req _ Hb Hin Hreq).
Qed.

(** C9. A selected channel identifier that [SENSOR_TYPES] does not hold
    is logged and skipped: alone it leaves the values as they are and
    raises nothing; in a list, once the channels before it are processed,
    the loop goes on with the channels after it, from the same values and
    the same recorder, the trace longer by the one error message. *)
Theorem C9_unknown_sensor_skipped (metering_point : string)
    (pre : list string) (s : string) (post : list string)
    (meter_data : MeterData V) (w : World V) :
  SENSOR_TYPES !! s = None ->
  process_sensors env metering_point [s] meter_data w
  = (Ok meter_data, logged (LogError (UnknownSensorType s metering_point)) w)
  /\ process_sensors env metering_point (pre ++ s :: post) meter_data w
     = match process_sensors env metering_point pre meter_data w with
       | (Ok meter_data', w') =>
           process_sensors env metering_point post meter_data'
             (logged (LogError (UnknownSensorType s metering_point)) w')
       | (Raise e, w') => (Raise e, w')
       end.
Proof.
  intros Hs. split.
  - simpl. by rewrite Hs.
  - rewrite process_sensors_app.
    destruct (process_sensors env metering_point pre meter_data w)
      as [[meter_data'|e] w']; [|done].
    simpl. by rewrite Hs.
Qed.

End TickClaims.

(** ** The scenarios, evaluated *)

Section ScenarioFacts.
Import Scenario.

(** C8. No stored data, two consecutive hourly points worth 1.5 and 2.0:
    the engine emits two entries with sums 1.5 and 3.5 and the
    year-to-date sum of the same points is 3.5; run through the
    coordinator for LU000001, the two entries are appended under the
    series' identity and the live value of the channel is 3.5. *)
Theorem C8_end_to_end :
  (forall (statistic_id : string) (t : datetime),
      _prepare_statistics statistic_id
        [point t 1.5; point (t + 3600)%Z 2.0] ∅
      = Ok [entry t 1.5 1.5; entry (t + 3600)%Z 2.0 3.5])
  /\ py_sum two_points = 3.5%float
  /\ _process_metering_point healthy "LU000001"
       ["electricity_consumption_active"] empty_world
     = (Ok {[ ELEC_CONSUMPTION_ACTIVE := Some 3.5%float ]},
        {| recorder :=
             {[ active_id := [row t0 1.5; row (t0 + 3600)%Z 3.5] ]};
           trace :=
             [ ApiRequest
                 (request "LU000001" ELEC_CONSUMPTION_ACTIVE t0 tick_time Infinite);
               AddExternalStatistics active_id
                 [entry t0 1.5 1.5; entry (t0 + 3600)%Z 2.0 3.5];
               ApiRequest
                 (request "LU000001" ELEC_CONSUMPTION_ACTIVE
                    (STATISTICS_PERIOD_START - 86400)%Z tick_time Hour) ] |}).
Proof.
  split; [|split].
  - intros statistic_id t. unfold _prepare_statistics.
    rewrite lookup_empty. reflexivity.
  - reflexivity.
  - vm_compute. reflexivity.
Qed.

(** C1, evaluated. The recorder holds hours 0, 1, 2 (sums 1, 2, 3); the
    fetch brings hours 1, 2, 3. The first pass emits hour 2 again, with
    sum 2, and hour 3 with sum 3; the second pass over the same fetch
    emits the same two entries again; the stored sum of hour 2 has gone
    from 3 to 2 and the final sum is 3, where one pass over hours 0 to 3
    gives 4. Handed only the most recent stored row, the engine discards
    hour 3, which starts at that row's end. *)
Theorem C1_rerun_emits_again_and_regresses :
  let history := reconcile [hour 0; hour 1; hour 2] empty_world in
  let fetched := [hour 1; hour 2; hour 3] in
  let once := reconcile fetched history in
  let twice := reconcile fetched once in
  recorder history !! active_id
  = Some [row t0 1; row (t0 + 3600)%Z 2; row (t0 + 7200)%Z 3]
  /\ trace once
     = AddExternalStatistics active_id
         [entry (t0 + 7200)%Z 1 2; entry (t0 + 10800)%Z 1 3]
         :: trace history
  /\ trace twice
     = AddExternalStatistics active_id
         [entry (t0 + 7200)%Z 1 2; entry (t0 + 10800)%Z 1 3]
         :: trace once
  /\ recorder twice !! active_id
     = Some [row t0 1; row (t0 + 3600)%Z 2; row (t0 + 7200)%Z 2;
             row (t0 + 10800)%Z 3]
  /\ recorder (reconcile [hour 0; hour 1; hour 2; hour 3] empty_world)
       !! active_id
     = Some [row t0 1; row (t0 + 3600)%Z 2; row (t0 + 7200)%Z 3;
             row (t0 + 10800)%Z 4]
  /\ _prepare_statistics active_id fetched
       {[ active_id := [row (t0 + 7200)%Z 3] ]}
     = Ok [].
Proof. vm_compute. repeat split; reflexivity. Qed.

(** C2, evaluated. One stored row, hour 0 with sum 5: the point of hour
    1 starts after the stored period start and is discarded all the
    same, because it does not start after the row's end. Two stored
    rows, sums 1 and 2: the running sum of a new point starts from 1,
    the sum of the first row, not from 2. *)
Theorem C2_cutoff_and_sum_of_first_row :
  _prepare_statistics active_id [hour 1; hour 2]
    {[ active_id := [row t0 5] ]}
  = Ok [entry (t0 + 7200)%Z 1 6]
  /\ _get_existing_statistics active_id
       (reconcile [hour 0; hour 1] empty_world)
     = (Ok {[ active_id := [row t0 1; row (t0 + 3600)%Z 2] ]},
        reconcile [hour 0; hour 1] empty_world)
  /\ _prepare_statistics active_id [hour 2]
       {[ active_id := [row t0 1; row (t0 + 3600)%Z 2] ]}
     = Ok [entry (t0 + 7200)%Z 1 2].
Proof. vm_compute. repeat split; reflexivity. Qed.

(** C4, as stated, fails: the second channel's fetch is rejected as
    unauthorized and the tick raises [ConfigEntryAuthFailed], but the
    two entries of the first channel were appended before and are in
    the recorder, which was empty. *)
Lemma C4_entries_appended_before_abort :
  api unauthorized_second
    (request "LU000001" ELEC_CONSUMPTION_REACTIVE
       (STATISTICS_PERIOD_START - 86400)%Z tick_time Hour)
  = Failure UnauthorizedException
  /\ _async_update_data unauthorized_second two_channels empty_world
     = (Raise ConfigEntryAuthFailed,
        {| recorder :=
             {[ active_id := [row t0 1.5; row (t0 + 3600)%Z 3.5] ]};
           trace :=
             [ LogError (AuthenticationError UnauthorizedException);
               ApiRequest
                 (request "LU000001" ELEC_CONSUMPTION_REACTIVE
                    (STATISTICS_PERIOD_START - 86400)%Z tick_time Hour);
               ApiRequest
                 (request "LU000001" ELEC_CONSUMPTION_ACTIVE t0 tick_time Infinite);
               AddExternalStatistics active_id
                 [entry t0 1.5 1.5; entry (t0 + 3600)%Z 2.0 3.5];
               ApiRequest
                 (request "LU000001" ELEC_CONSUMPTION_ACTIVE
                    (STATISTICS_PERIOD_START - 86400)%Z tick_time Hour) ] |})
  /\ recorder empty_world !! active_id = None.
Proof. vm_compute. repeat split; reflexivity. Qed.

(** C5, as stated, fails: the first channel's fetch is forbidden; the
    failure is raised to the host, no message is logged, and the second
    channel, whose requests would all have been served, is never
    fetched: the trace ends with the failing request. *)
Lemma C5_forbidden_aborts_tick :
  api forbidden_first
    (request "LU000001" ELEC_CONSUMPTION_ACTIVE
       (STATISTICS_PERIOD_START - 86400)%Z tick_time Hour)
  = Failure ForbiddenException
  /\ (forall r, req_obis r = ELEC_CONSUMPTION_REACTIVE ->
        api forbidden_first r = Data two_points)
  /\ _async_update_data forbidden_first two_channels empty_world
     = (Raise (ClientExn ForbiddenException),
        {| recorder := ∅;
           trace :=
             [ ApiRequest
                 (request "LU000001" ELEC_CONSUMPTION_ACTIVE
                    (STATISTICS_PERIOD_START - 86400)%Z tick_time Hour) ] |}).
Proof.
  split; [reflexivity|]. split; [|vm_compute; reflexivity].
  intros r Hr. unfold forbidden_first, env_of. simpl. by rewrite Hr.
Qed.


End ScenarioFacts.

(** * Instances *)

Section Witnesses.
Import Scenario.

Lemma C4_unauthorized_aborts_tick_witness :
  (_async_update_data unauthorized_second two_channels empty_world).1
  = Raise ConfigEntryAuthFailed
  /\ exists before,
       LogError (AuthenticationError UnauthorizedException)
         :: ApiRequest rejected_request :: first_channel_served
       = LogError (AuthenticationError UnauthorizedException)
           :: ApiRequest rejected_request :: before
       /\ served unauthorized_second before
       /\ recorder
            (_async_update_data unauthorized_second two_channels empty_world).2
          = replay before (recorder empty_world).
Proof.
  apply (C4_unauthorized_aborts_tick unauthorized_second two_channels
           empty_world rejected_request).
  - vm_compute. reflexivity.
  - simpl. auto.
  - reflexivity.
Defined.

Lemma C5_forbidden_propagates_witness :
  (_async_update_data forbidden_first two_channels empty_world).1
  = Raise (ClientExn ForbiddenException)
  /\ exists before,
       [ApiRequest forbidden_request] = ApiRequest forbidden_request :: before
       /\ served forbidden_first before
       /\ recorder
            (_async_update_data forbidden_first two_channels empty_world).2
          = replay before (recorder empty_world).
Proof.
  apply (C5_forbidden_propagates forbidden_first two_channels empty_world
           forbidden_request ForbiddenException).
  - discriminate.
  - vm_compute. reflexivity.
  - simpl. auto.
  - reflexivity.
Defined.


Lemma C9_unknown_sensor_skipped_witness :
  process_sensors healthy "LU000001" ["water_consumption"] ∅ empty_world
  = (Ok ∅,
     logged (LogError (UnknownSensorType "water_consumption" "LU000001"))
       empty_world)
  /\ process_sensors healthy "LU000001"
       (["electricity_consumption_active"] ++
          "water_consumption" :: ["electricity_consumption_reactive"])
       ∅ empty_world
     = match process_sensors healthy "LU000001"
               ["electricity_consumption_active"] ∅ empty_world with
       | (Ok meter_data', w') =>
           process_sensors healthy "LU000001"
             ["electricity_consumption_reactive"] meter_data'
             (logged
                (LogError (UnknownSensorType "water_consumption" "LU000001"))
                w')
       | (Raise e, w') => (Raise e, w')
       end.
Proof.
  apply (C9_unknown_sensor_skipped healthy "LU000001"
           ["electricity_consumption_active"] "water_consumption"
           ["electricity_consumption_reactive"] ∅ empty_world).
  vm_compute. reflexivity.
Defined.

Lemma C10_missing_sum_restarts_from_zero_witness :
  _prepare_statistics active_id [hour 1; hour 2; hour 3]
    {[ active_id :=
         [ {| row_start := t0; row_end := (t0 + 3600)%Z; row_sum := None |};
           row (t0 + 3600)%Z 7 ] ]}
  = Ok [entry (t0 + 7200)%Z 1 1; entry (t0 + 10800)%Z 1 2].
Proof.
  rewrite (C10_missing_sum_restarts_from_zero active_id [hour 1; hour 2; hour 3]
             _ {| row_start := t0; row_end := (t0 + 3600)%Z; row_sum := None |}
             [row (t0 + 3600)%Z 7]).
  - vm_compute. reflexivity.
  - vm_compute. reflexivity.
  - reflexivity.
Defined.

End Witnesses.

(** * Further properties *)

(** ** Statistic identity *)

Lemma lower_char_idempotent (c : ascii) :
  Str.lower_char (Str.lower_char c) = Str.lower_char c.
Proof. destruct c as [[] [] [] [] [] [] [] []]; reflexivity. Qed.

Lemma clean_char_idempotent (c : ascii) : clean_char (clean_char c) = clean_char c.
Proof. destruct c as [[] [] [] [] [] [] [] []]; reflexivity. Qed.

Lemma clean_char_lower (c : ascii) : clean_char (Str.lower_char c) = clean_char c.
Proof. unfold clean_char. by rewrite lower_char_idempotent. Qed.

Lemma clean_char_in_class (c : ascii) : Str.in_a_z0_9 c = true -> clean_char c = c.
Proof. destruct c as [[] [] [] [] [] [] [] []]; (reflexivity || discriminate). Qed.

Lemma str_map_map (f g : ascii -> ascii) (s : string) :
  Str.map f (Str.map g s) = Str.map (fun c => f (g c)) s.
Proof. induction s as [|c s IH]; simpl; [done|]. by rewrite IH. Qed.

Lemma str_map_ext (f g : ascii -> ascii) (s : string) :
  (forall c, f c = g c) -> Str.map f s = Str.map g s.
Proof. intros Hfg. induction s as [|c s IH]; simpl; [done|]. by rewrite Hfg, IH. Qed.

Lemma clean_as_map (s : string) :
  Str.sub_not_a_z0_9 (Str.lower s) = Str.map clean_char s.
Proof. unfold Str.sub_not_a_z0_9, Str.lower. by rewrite str_map_map. Qed.

Lemma chars_inj (a b : string) : Str.chars a = Str.chars b -> a = b.
Proof.
  unfold Str.chars. intros Hab.
  rewrite <- (string_of_list_ascii_of_string a), <- (string_of_list_ascii_of_string b).
  by rewrite Hab.
Qed.

Lemma split_at_first {A} (x : A) (l1 l2 r1 r2 : list A) :
  ~ In x l1 -> ~ In x l2 ->
  l1 ++ x :: r1 = l2 ++ x :: r2 -> l1 = l2 /\ r1 = r2.
Proof.
  revert l2. induction l1 as [|a l1 IH]; intros [|b l2] H1 H2 Heq; simpl in *.
  - by injection Heq.
  - injection Heq as -> _. destruct H2. by left.
  - injection Heq as -> _. destruct H1. by left.
  - injection Heq as -> Heq.
    destruct (IH l2) as [-> ->]; [tauto..|done|done].
Qed.

(** X1. The identity depends on its inputs only through their cleaned
    form: lower-casing an input, or cleaning it, beforehand gives the same
    identity. *)
Theorem statistic_id_of_cleaned_inputs (metering_point obis : string) :
  _create_statistic_id (Str.lower metering_point) (Str.lower obis)
  = _create_statistic_id metering_point obis
  /\ _create_statistic_id
       (Str.sub_not_a_z0_9 (Str.lower metering_point))
       (Str.sub_not_a_z0_9 (Str.lower obis))
     = _create_statistic_id metering_point obis.
Proof.
  unfold _create_statistic_id. cbv zeta. rewrite !clean_as_map. split.
  - unfold Str.lower. rewrite !str_map_map.
    by rewrite !(str_map_ext (fun c => clean_char (Str.lower_char c)) clean_char)
      by apply clean_char_lower.
  - rewrite !str_map_map.
    by rewrite !(str_map_ext (fun c => clean_char (clean_char c)) clean_char)
      by apply clean_char_idempotent.
Qed.

(** X2. On metering points written with lower-case letters and digits
    only, the identity is injective: equal identities come from the same
    metering point and from codes that are equal once cleaned. *)
Theorem statistic_id_injective_on_clean_metering_points
    (mp1 mp2 obis1 obis2 : string) :
  Forall (fun c => Str.in_a_z0_9 c = true) (Str.chars mp1) ->
  Forall (fun c => Str.in_a_z0_9 c = true) (Str.chars mp2) ->
  _create_statistic_id mp1 obis1 = _create_statistic_id mp2 obis2 ->
  mp1 = mp2
  /\ Str.sub_not_a_z0_9 (Str.lower obis1) = Str.sub_not_a_z0_9 (Str.lower obis2).
Proof.
  intros H1 H2 Heq.
  assert (Hkeep : forall mp, Forall (fun c => Str.in_a_z0_9 c = true) (Str.chars mp) ->
            List.map clean_char (Str.chars mp) = Str.chars mp
            /\ ~ In "_"%char (Str.chars mp)).
  { intros mp Hmp. induction Hmp as [|c l Hc Hl [IH1 IH2]]; simpl; [tauto|].
    split; [by rewrite (clean_char_in_class c Hc), IH1|].
    intros [->|Hin]; [discriminate Hc|tauto]. }
  apply (f_equal Str.chars) in Heq.
  unfold _create_statistic_id in Heq. cbv zeta in Heq.
  rewrite !StrFacts.chars_append, !clean_chars in Heq.
  apply app_inv_head in Heq. apply app_inv_head in Heq.
  destruct (Hkeep mp1 H1) as [E1 N1], (Hkeep mp2 H2) as [E2 N2].
  rewrite E1, E2 in Heq.
  apply (split_at_first "_"%char) in Heq as [Hmp Hobis]; [|done..].
  split; [by apply chars_inj|].
  apply chars_inj. by rewrite !clean_chars.
Qed.

Lemma statistic_id_injective_on_clean_metering_points_witness :
  "lu000001" = "lu000001"
  /\ Str.sub_not_a_z0_9 (Str.lower "1-1:1.29.0")
     = Str.sub_not_a_z0_9 (Str.lower "1_1_1_29_0").
Proof.
  apply (statistic_id_injective_on_clean_metering_points
           "lu000001" "lu000001" "1-1:1.29.0" "1_1_1_29_0").
  - vm_compute. repeat constructor.
  - vm_compute. repeat constructor.
  - reflexivity.
Defined.

(** ** The reconciliation engine *)

Section EngineExtras.
Context {V : Type} `{PyFloat V}.

Local Abbreviation Point := (AggregatedMeteringValue V).
Local Abbreviation Entry := (StatisticData V).
Local Abbreviation Row := (StatisticsRow V).

Lemma running_entries_app (s : V) (ps qs : list Point) :
  running_entries s (ps ++ qs)
  = running_entries s ps
      ++ running_entries (fold_left fadd (List.map value ps) s) qs.
Proof.
  revert s. induction ps as [|p ps IH]; intros s; simpl; [done|].
  by rewrite IH.
Qed.

Lemma running_entries_last (s : V) (ps : list Point) :
  default s (sd_sum <$> last (running_entries s ps))
  = fold_left fadd (List.map value ps) s.
Proof.
  induction ps as [|p ps _] using rev_ind; [done|].
  rewrite running_entries_snoc, last_snoc, map_app, fold_left_app. done.
Qed.

Lemma running_entries_starts (P : Z -> Prop) (s : V) (ps : list Point) :
  Forall (fun p => P (started_at p)) ps ->
  Forall (fun e : Entry => P (sd_start e)) (running_entries s ps).
Proof.
  intros Hps. revert s. induction Hps; intros s; simpl; constructor; auto.
Qed.

Lemma filter_after_cutoff (cutoff : option Z) (ts : list Point) :
  Forall (fun p => match cutoff with
                   | Some c => (c < started_at p)%Z
                   | None => True
                   end)
    (List.filter (after_cutoff cutoff) ts).
Proof.
  apply List.Forall_forall. intros p Hp. apply filter_In in Hp as [_ Hp].
  destruct cutoff as [c|]; [|done]. simpl in Hp.
  apply negb_true_iff, Z.leb_gt in Hp. done.
Qed.

Lemma filter_strongly_sorted {A} (R : A -> A -> Prop) (f : A -> bool) (l : list A) :
  StronglySorted R l -> StronglySorted R (List.filter f l).
Proof.
  induction 1 as [|a l Hl IH Ha]; simpl; [constructor|].
  destruct (f a); [|done]. constructor; [done|].
  apply List.Forall_forall. intros x Hx. apply filter_In in Hx as [Hx _].
  rewrite List.Forall_forall in Ha. auto.
Qed.

Lemma running_entries_strongly_sorted (s : V) (ps : list Point) :
  StronglySorted (fun p q : Point => (started_at p < started_at q)%Z) ps ->
  StronglySorted (fun e f : Entry => (sd_start e < sd_start f)%Z)
    (running_entries s ps).
Proof.
  intros Hps. revert s. induction Hps as [|p ps Hps IH Hp]; intros s; simpl.
  - constructor.
  - constructor; [apply IH|].
    by apply (running_entries_starts (fun t => (started_at p < t)%Z)).
Qed.

Lemma no_row_or_not (statistic_id : string)
    (existing_stats : gmap string (list Row)) :
  existing_stats !! statistic_id = Some []
  \/ existing_stats !! statistic_id <> Some [].
Proof. destruct (existing_stats !! statistic_id) as [[|r rs]|]; auto. Qed.

(** X3. Unless the series is present with no row, the engine returns one
    entry for each fetched point that starts after the cutoff, in the
    order fetched, and none for the others; an entry carries the start and
    the value of its point. *)
Theorem prepare_statistics_keeps_points_after_cutoff (statistic_id : string)
    (ts : list Point) (existing_stats : gmap string (list Row)) :
  existing_stats !! statistic_id <> Some [] ->
  exists out,
    _prepare_statistics statistic_id ts existing_stats = Ok out
    /\ Forall2 (fun (e : Entry) (p : Point) =>
                  sd_start e = started_at p /\ sd_state e = value p)
         out
         (List.filter
            (fun p => match read_cutoff existing_stats statistic_id with
                      | Some c => negb (started_at p <=? c)%Z
                      | None => true
                      end) ts).
Proof.
  intros Hrows. eexists. split; [by apply prepare_statistics_running|].
  apply running_entries_copy.
Qed.

(** X4. When the fetched points come in strictly increasing order of
    start, so do the entries, and every entry starts after the cutoff. *)
Theorem prepare_statistics_entries_increase (statistic_id : string)
    (ts : list Point) (existing_stats : gmap string (list Row))
    (out : list Entry) :
  StronglySorted (fun p q : Point => (started_at p < started_at q)%Z) ts ->
  _prepare_statistics statistic_id ts existing_stats = Ok out ->
  StronglySorted (fun e f : Entry => (sd_start e < sd_start f)%Z) out
  /\ forall c, read_cutoff existing_stats statistic_id = Some c ->
       Forall (fun e : Entry => (c < sd_start e)%Z) out.
Proof.
  intros Hts Hout.
  destruct (no_row_or_not statistic_id existing_stats) as [Hempty|Hrows].
  { by rewrite prepare_statistics_no_row in Hout. }
  rewrite prepare_statistics_running in Hout by done. injection Hout as <-.
  split.
  - by apply running_entries_strongly_sorted, filter_strongly_sorted.
  - intros c Hc.
    apply (running_entries_starts (fun t => (c < t)%Z)).
    rewrite Hc. apply (filter_after_cutoff (Some c)).
Qed.

(** X5. A fetch reconciled in two parts: the entries of the whole are the
    entries of the first part followed by those of the second part,
    computed from the same cutoff and from the last sum of the first part
    (the initial sum when the first part gave no entry). *)
Theorem prepare_statistics_in_two_parts (statistic_id : string)
    (ts1 ts2 : list Point) (existing_stats : gmap string (list Row)) :
  existing_stats !! statistic_id <> Some [] ->
  exists out1,
    _prepare_statistics statistic_id ts1 existing_stats = Ok out1
    /\ _prepare_statistics statistic_id (ts1 ++ ts2) existing_stats
       = Ok (out1
               ++ prepare_loop (read_cutoff existing_stats statistic_id)
                    (default (read_sum existing_stats statistic_id)
                       (sd_sum <$> last out1))
                    ts2).
Proof.
  intros Hrows. eexists. split; [by apply prepare_statistics_running|].
  rewrite prepare_statistics_running by done.
  rewrite List.filter_app, running_entries_app, prepare_loop_running.
  by rewrite running_entries_last.
Qed.

End EngineExtras.

(** ** The coordinator *)

Section CoordinatorExtras.
Context {V : Type} `{PyFloat V}.
Variable env : Env V.

Lemma process_sensors_cons (metering_point s : string) (rest : list string)
    (meter_data : MeterData V) :
  process_sensors env metering_point (s :: rest) meter_data
  = match SENSOR_TYPES !! s with
    | None =>
        emit (LogError (UnknownSensorType s metering_point));;
        process_sensors env metering_point rest meter_data
    | Some cfg =>
        _update_statistics env metering_point (obis_code cfg);;
        current_total ← _get_current_total env metering_point (obis_code cfg);
        process_sensors env metering_point rest
          (<[obis_code cfg := current_total]> meter_data)
    end.
Proof. reflexivity. Qed.

Lemma update_all_cons (metering_point : string) (selected_sensors : list string)
    (rest : list (string * list string)) (data : gmap string (MeterData V)) :
  update_all env ((metering_point, selected_sensors) :: rest) data
  = (meter_data ← _process_metering_point env metering_point selected_sensors;
     update_all env rest (<[metering_point := meter_data]> data)).
Proof. reflexivity. Qed.

Lemma keeps_ret (statistic_id : string) {A} (a : A) :
  keeps statistic_id (mret a : M V A).
Proof. by intros w. Qed.

Lemma keeps_bind (statistic_id : string) {A B} (m : M V A) (f : A -> M V B) :
  keeps statistic_id m -> (forall a, keeps statistic_id (f a)) ->
  keeps statistic_id (m ≫= f).
Proof.
  intros Hm Hf w. rewrite bind_run. specialize (Hm w).
  destruct (m w) as [[a|e] w1]; simpl in *; [|done].
  by rewrite Hf.
Qed.

Lemma keeps_emit (statistic_id : string) (ev : Event V) :
  keeps statistic_id (emit ev).
Proof. by intros w. Qed.

Lemma keeps_request (statistic_id : string) (r : Request) :
  keeps statistic_id (get_aggregated_metering_data env r).
Proof.
  unfold get_aggregated_metering_data.
  apply keeps_bind; [apply keeps_emit|]. intros _.
  by destruct (api env r).
Qed.

Lemma keeps_process_and_store (statistic_id other metering_point : string)
    (obis : ObisCode) (ts : list (AggregatedMeteringValue V)) :
  other <> statistic_id ->
  keeps other (_process_and_store_statistics statistic_id metering_point obis ts).
Proof.
  intros Hne w.
  destruct (process_and_store_run statistic_id metering_point obis ts w)
    as (out & _ & ->).
  destruct out as [|o out]; simpl; [done|].
  by rewrite lookup_insert_ne.
Qed.

Lemma keeps_update_statistics (other metering_point : string) (obis : ObisCode) :
  other <> _create_statistic_id metering_point (obis_value env obis) ->
  keeps other (_update_statistics env metering_point obis).
Proof.
  intros Hne. unfold _update_statistics. apply keeps_bind.
  - intros w. by rewrite get_statistics_start_date_run.
  - intros start_date. destruct (_ <? _)%Z; [apply keeps_ret|].
    apply keeps_bind; [apply keeps_request|].
    intros [|p ts]; [apply keeps_ret|by apply keeps_process_and_store].
Qed.

Lemma keeps_get_current_total (other metering_point : string) (obis : ObisCode) :
  keeps other (_get_current_total env metering_point obis).
Proof.
  unfold _get_current_total. apply keeps_bind; [apply keeps_request|].
  intros [|p ts]; apply keeps_ret.
Qed.

Lemma keeps_process_sensors (other metering_point : string)
    (selected_sensors : list string) (meter_data : MeterData V) :
  (forall s cfg, In s selected_sensors -> SENSOR_TYPES !! s = Some cfg ->
     other <> _create_statistic_id metering_point (obis_value env (obis_code cfg))) ->
  keeps other (process_sensors env metering_point selected_sensors meter_data).
Proof.
  revert meter_data.
  induction selected_sensors as [|s rest IH]; intros meter_data Hne.
  - apply keeps_ret.
  - rewrite process_sensors_cons.
    destruct (SENSOR_TYPES !! s) as [cfg|] eqn:Hs.
    + apply keeps_bind.
      { apply keeps_update_statistics. apply (Hne s); [by left|done]. }
      intros _. apply keeps_bind; [apply keeps_get_current_total|].
      intros total. apply IH. intros s' cfg' Hin. apply Hne. by right.
    + apply keeps_bind; [apply keeps_emit|].
      intros _. apply IH. intros s' cfg' Hin. apply Hne. by right.
Qed.

Lemma keeps_update_all (other : string) (items : list (string * list string))
    (data : gmap string (MeterData V)) :
  ~ configured_series env items other ->
  keeps other (update_all env items data).
Proof.
  revert data. induction items as [|[mp sensors] rest IH]; intros data Hne.
  - apply keeps_ret.
  - rewrite update_all_cons. apply keeps_bind.
    + apply keeps_process_sensors. intros s cfg Hs Hcfg Heq.
      apply Hne. exists mp, sensors, s, cfg.
      split; [left; reflexivity|]. split; [exact Hs|]. split; [exact Hcfg|exact Heq].
    + intros meter_data. apply IH.
      intros (mp' & sensors' & s & cfg & Hin & Hrest). apply Hne.
      exists mp', sensors', s, cfg. split; [right; exact Hin|exact Hrest].
Qed.

(** X8. A tick changes the recorder only at the series of its configured
    channels: the rows of every other series are as they were, whether
    the tick returns or raises. *)
Theorem tick_keeps_other_series (metering_points : list (string * list string))
    (other : string) (w : World V) :
  ~ configured_series env metering_points other ->
  recorder (_async_update_data env metering_points w).2 !! other
  = recorder w !! other.
Proof.
  intros Hne. unfold _async_update_data, try_except.
  pose proof (keeps_update_all other metering_points ∅ Hne w) as Hk.
  destruct (update_all env metering_points ∅ w) as [[data|e] w1]; simpl in *;
    [done|].
  destruct e as [[]| | |]; simpl; done.
Qed.

(** X9. A fetch that brings nothing new stores nothing: when the series
    has stored rows and every fetched point starts at or before the end
    of the first of them, the reconciliation returns without calling the
    import and leaves the recorder and the trace as they are. *)
Theorem stale_fetch_stores_nothing (statistic_id metering_point : string)
    (obis : ObisCode) (ts : list (AggregatedMeteringValue V)) (w : World V)
    (row : StatisticsRow V) (rows : list (StatisticsRow V)) :
  existing (recorder w) statistic_id !! statistic_id = Some (row :: rows) ->
  Forall (fun p => (started_at p <= row_end row)%Z) ts ->
  _process_and_store_statistics statistic_id metering_point obis ts w
  = (Ok tt, w).
Proof.
  intros Hrow Hts.
  destruct (process_and_store_run statistic_id metering_point obis ts w)
    as (out & Hout & ->).
  rewrite prepare_statistics_running in Hout by apply existing_has_row.
  unfold read_cutoff in Hout. rewrite Hrow in Hout.
  assert (Hnone : List.filter (after_cutoff (Some (row_end row))) ts = []).
  { clear -Hts. induction Hts as [|p ts Hp Hts IH]; simpl; [done|].
    apply Z.leb_le in Hp. by rewrite Hp. }
  rewrite Hnone in Hout. by injection Hout as <-.
Qed.

(** The live total makes one request, for the whole period from the
    start of the year to now at granularity [Infinite], and leaves the
    recorder as it is; it is [None] when the service returns no point,
    the sum of the values otherwise, and a failure of the service is
    raised unchanged. *)
Lemma get_current_total_run (metering_point : string) (obis : ObisCode)
    (w : World V) :
  let req :=
    {| req_metering_point := metering_point; req_obis := obis;
       req_start_date := year_start env; req_end_date := now env;
       req_granularity := Infinite; req_mode := Accumulation |} in
  _get_current_total env metering_point obis w
  = (match api env req with
     | Data [] => Ok None
     | Data series => Ok (Some (py_sum series))
     | Failure e => Raise (ClientExn e)
     end,
     logged (ApiRequest req) w).
Proof.
  intros req. unfold _get_current_total, get_aggregated_metering_data.
  fold req. rewrite !bind_run. unfold emit at 1.
  by destruct (api env req) as [[|p series]|e].
Qed.

Lemma known_codes_cons (s : string) (rest : list string) :
  known_codes (s :: rest)
  = match SENSOR_TYPES !! s with
    | Some cfg => {[ obis_code cfg ]} ∪ known_codes rest
    | None => known_codes rest
    end.
Proof.
  unfold known_codes. cbn [omap list_omap].
  destruct (SENSOR_TYPES !! s); reflexivity.
Qed.

Lemma known_codes_cons_known (s : string) (rest : list string)
    (cfg : SensorTypeConfig) :
  SENSOR_TYPES !! s = Some cfg ->
  known_codes (s :: rest) = {[ obis_code cfg ]} ∪ known_codes rest.
Proof. intros Hs. by rewrite known_codes_cons, Hs. Qed.

Lemma process_sensors_dom (metering_point : string)
    (selected_sensors : list string) (meter_data meter_data' : MeterData V)
    (w w' : World V) :
  process_sensors env metering_point selected_sensors meter_data w
  = (Ok meter_data', w') ->
  dom meter_data' = dom meter_data ∪ known_codes selected_sensors.
Proof.
  revert meter_data w.
  induction selected_sensors as [|s rest IH]; intros meter_data w.
  - change (process_sensors env metering_point [] meter_data w)
      with (Ok meter_data, w).
    intros [= <- <-]. change (known_codes []) with (∅ : gset ObisCode).
    by rewrite (right_id_L ∅ (∪)).
  - rewrite known_codes_cons, process_sensors_cons.
    destruct (SENSOR_TYPES !! s) as [cfg|]; rewrite !bind_run.
    + destruct (_update_statistics _ _ _ _) as [[[]|e] w1]; [|done].
      rewrite !bind_run.
      destruct (_get_current_total _ _ _ _) as [[total|e] w2]; [|done].
      intros Hrest. apply IH in Hrest. unfold MeterData in *.
      rewrite Hrest, dom_insert_L.
      generalize (known_codes rest) (dom meter_data). intros K D.
      by rewrite (assoc_L (∪) D), (comm_L (∪) D).
    + unfold emit at 1. intros Hrest. by apply IH in Hrest.
Qed.

Lemma update_all_result (items : list (string * list string))
    (data data' : gmap string (MeterData V)) (w w' : World V) :
  update_all env items data w = (Ok data', w') ->
  dom data' = dom data ∪ list_to_set items.*1
  /\ forall mp md, data' !! mp = Some md ->
       data !! mp = Some md
       \/ exists sensors, In (mp, sensors) items /\ dom md = known_codes sensors.
Proof.
  revert data w. induction items as [|[mp sensors] rest IH]; intros data w.
  - change (update_all env [] data w) with (Ok data, w).
    intros [= <- <-]. change (list_to_set ([] : list (string * list string)).*1)
      with (∅ : gset string).
    split; [by rewrite (right_id_L ∅ (∪))|auto].
  - rewrite update_all_cons, bind_run. unfold _process_metering_point.
    change (list_to_set ((mp, sensors) :: rest).*1)
      with ({[ mp ]} ∪ list_to_set rest.*1 : gset string).
    destruct (process_sensors env mp sensors ∅ w) as [[md0|e] w1] eqn:Hmp; [|done].
    intros Hrest. apply IH in Hrest as [Hdom Hin].
    apply process_sensors_dom in Hmp. split.
    + rewrite Hdom, dom_insert_L.
      generalize (list_to_set rest.*1 : gset string) (dom data). intros K D.
      by rewrite (assoc_L (∪) D), (comm_L (∪) D).
    + intros mp' md Hmd. destruct (Hin mp' md Hmd) as [Hold|(sensors' & Hs & Hd)].
      * destruct (decide (mp = mp')) as [<-|Hne].
        -- rewrite lookup_insert_eq in Hold. injection Hold as <-.
           right. exists sensors. split; [by left|].
           unfold MeterData in *. rewrite Hmp, dom_empty_L.
           by rewrite (left_id_L ∅ (∪)).
        -- rewrite lookup_insert_ne in Hold by done. by left.
      * right. exists sensors'. split; [by right|done].
Qed.

(** X11. When a tick returns, its result map has exactly the configured
    metering points as keys, and the values of each hold exactly the
    codes of the sensor types selected for it that [SENSOR_TYPES] holds. *)
Theorem tick_result_map_keys (metering_points : list (string * list string))
    (data : gmap string (MeterData V)) (w : World V) :
  (_async_update_data env metering_points w).1 = Ok data ->
  dom data = list_to_set metering_points.*1
  /\ forall mp md, data !! mp = Some md ->
       exists sensors,
         In (mp, sensors) metering_points /\ dom md = known_codes sensors.
Proof.
  unfold _async_update_data, try_except.
  destruct (update_all env metering_points ∅ w) as [[data'|e] w1] eqn:Hrun; simpl.
  - intros [= ->]. apply update_all_result in Hrun as [Hdom Hin]. split.
    + by rewrite Hdom, dom_empty_L, (left_id_L ∅ (∪)).
    + intros mp md Hmd. destruct (Hin mp md Hmd) as [Hold|Hnew]; [|done].
      by rewrite lookup_empty in Hold.
  - destruct e as [[]| | |]; simpl; discriminate.
Qed.

End CoordinatorExtras.

(** ** The sensors detected by a probe *)

Lemma SENSOR_TYPES_from_items : SENSOR_TYPES = list_to_map SENSOR_TYPES_items.
Proof. reflexivity. Qed.

Lemma first_sensor_type_known (obis : ObisCode) :
  exists sensor_type cfg,
    first_sensor_type obis SENSOR_TYPES_items = Some sensor_type
    /\ SENSOR_TYPES !! sensor_type = Some cfg
    /\ obis_code cfg = obis.
Proof. destruct obis; eexists _, _; vm_compute; repeat split; reflexivity. Qed.

(** X14. For supported codes among those that [SENSOR_TYPES] names, a
    probe detects one sensor type per code, in the order of the codes, and
    each is a key of [SENSOR_TYPES] whose code is the supported one: the
    coordinator finds every detected sensor type and reads back exactly
    the supported codes. *)
Theorem detected_sensors_are_known (supported_obis_codes : list ObisCode) :
  Forall2
    (fun sensor_type obis =>
       exists cfg, SENSOR_TYPES !! sensor_type = Some cfg /\ obis_code cfg = obis)
    (detected_sensors supported_obis_codes) supported_obis_codes
  /\ known_codes (detected_sensors supported_obis_codes)
     = list_to_set supported_obis_codes.
Proof.
  unfold detected_sensors.
  induction supported_obis_codes as [|obis rest [IH1 IH2]].
  - split; [constructor|reflexivity].
  - cbn [omap list_omap].
    destruct (first_sensor_type_known obis) as (s & cfg & -> & Hs & Hcfg).
    split; [constructor; eauto|].
    rewrite known_codes_cons_known with (cfg := cfg) by done.
    by rewrite IH2, Hcfg.
Qed.

(** ** Anonymised keys *)

Lemma chars_length (s : string) : length (Str.chars s) = String.length s.
Proof. induction s as [|c s IH]; simpl; [done|]. unfold Str.chars in *. simpl. by rewrite IH. Qed.

Lemma chars_substring_0 (n : nat) (s : string) :
  Str.chars (substring 0 n s) = take n (Str.chars s).
Proof.
  revert n. induction s as [|c s IH]; intros [|n]; simpl; try done.
  unfold Str.chars in *. simpl. by rewrite IH.
Qed.

Lemma chars_hashes (n : nat) : Str.chars (hashes n) = replicate n "#"%char.
Proof. induction n as [|n IH]; simpl; [done|]. unfold Str.chars in *. simpl. by rewrite IH. Qed.

Lemma chars_anonymize_key (key : string) :
  Str.chars (anonymize_key key)
  = if (String.length key <=? 6)%nat then Str.chars key
    else take 6 (Str.chars key) ++ replicate (String.length key - 6) "#"%char.
Proof.
  unfold anonymize_key. destruct (String.length key <=? 6)%nat; [done|].
  by rewrite StrFacts.chars_append, chars_substring_0, chars_hashes.
Qed.

(** X15. An anonymised key has the length of the key and its first six
    characters; every character after the sixth is a hash; a key of at
    most six characters is unchanged; anonymising twice changes nothing
    more. *)
Theorem anonymize_key_shape (key : string) :
  String.length (anonymize_key key) = String.length key
  /\ take 6 (Str.chars (anonymize_key key)) = take 6 (Str.chars key)
  /\ Forall (fun c => c = "#"%char) (drop 6 (Str.chars (anonymize_key key)))
  /\ ((String.length key <= 6)%nat -> anonymize_key key = key)
  /\ anonymize_key (anonymize_key key) = anonymize_key key.
Proof.
  assert (Hshort : (String.length key <= 6)%nat -> anonymize_key key = key).
  { intros Hle. unfold anonymize_key. apply Nat.leb_le in Hle. by rewrite Hle. }
  assert (Hlen : String.length (anonymize_key key) = String.length key).
  { rewrite <- !chars_length, chars_anonymize_key.
    destruct (String.length key <=? 6)%nat eqn:Hle; [done|].
    apply Nat.leb_gt in Hle.
    rewrite length_app, length_take, length_replicate, chars_length. lia. }
  assert (Htake : take 6 (Str.chars (anonymize_key key)) = take 6 (Str.chars key)).
  { rewrite chars_anonymize_key.
    destruct (String.length key <=? 6)%nat eqn:Hle; [done|].
    apply Nat.leb_gt in Hle.
    rewrite take_app_le by (rewrite length_take, chars_length; lia).
    by rewrite take_take. }
  split; [done|]. split; [done|]. split; [|split; [done|]].
  - rewrite chars_anonymize_key.
    destruct (String.length key <=? 6)%nat eqn:Hle.
    + apply Nat.leb_le in Hle. rewrite drop_ge by (rewrite chars_length; lia).
      constructor.
    + apply Nat.leb_gt in Hle.
      rewrite drop_app_length' by (rewrite length_take, chars_length; lia).
      apply Forall_replicate. done.
  - apply chars_inj.
    rewrite (chars_anonymize_key (anonymize_key key)), Hlen, Htake.
    destruct (String.length key <=? 6)%nat eqn:Hle; [done|].
    by rewrite (chars_anonymize_key key), Hle.
Qed.

(** X16. Two keys longer than six characters, of the same length and with
    the same first six characters, have the same anonymised key, and the
    anonymised coordinator data keeps one entry for the two, with the
    value of the second. *)
Theorem anonymize_key_collision {A} (k1 k2 : string) (v1 v2 : A) :
  (6 < String.length k1)%nat ->
  String.length k1 = String.length k2 ->
  take 6 (Str.chars k1) = take 6 (Str.chars k2) ->
  anonymize_key k1 = anonymize_key k2
  /\ anonymized_coordinator_data (Some [(k1, v1); (k2, v2)])
     = Some [(anonymize_key k1, v2)].
Proof.
  intros Hlong Hlen Hpre.
  assert (Heq : anonymize_key k1 = anonymize_key k2).
  { apply chars_inj. rewrite !chars_anonymize_key, <- Hlen, Hpre.
    apply Nat.leb_gt in Hlong. by rewrite Hlong. }
  split; [done|].
  unfold anonymized_coordinator_data. simpl.
  by rewrite <- Heq, String.eqb_refl.
Qed.

Lemma anonymize_key_collision_witness :
  anonymize_key "LU0000010001" = anonymize_key "LU0000010002"
  /\ anonymized_coordinator_data
       (Some [("LU0000010001", 1%Z); ("LU0000010002", 2%Z)])
     = Some [(anonymize_key "LU0000010001", 2%Z)].
Proof.
  apply (anonymize_key_collision "LU0000010001" "LU0000010002" 1%Z 2%Z).
  - simpl. lia.
  - reflexivity.
  - reflexivity.
Defined.

(** ** The configured metering points *)

Lemma dict_setitem_to_map {A} (k : string) (v : A) (d : list (string * A)) :
  (list_to_map (dict_setitem k v d) : gmap string A) = <[k := v]> (list_to_map d).
Proof.
  induction d as [|[k' v'] d IH]; simpl; [done|].
  destruct (String.eqb_spec k' k) as [->|Hne]; simpl.
  - by rewrite insert_insert_eq.
  - by rewrite IH, insert_insert_ne.
Qed.

Lemma dict_setitem_keys {A} (k : string) (v : A) (d : list (string * A)) :
  (dict_setitem k v d).*1 = if decide (k ∈ d.*1) then d.*1 else d.*1 ++ [k].
Proof.
  induction d as [|[k' v'] d IH]; [done|].
  cbn [dict_setitem]. destruct (String.eqb_spec k' k) as [->|Hne].
  - rewrite !fmap_cons. cbn [fst]. rewrite decide_True by left. done.
  - rewrite !fmap_cons, IH. cbn [fst].
    destruct (decide (k ∈ d.*1)) as [Hin|Hnin].
    + rewrite decide_True by (by right). done.
    + rewrite decide_False; [done|]. intros Hin.
      apply elem_of_cons in Hin as [->|Hin]; done.
Qed.

Lemma dict_setitem_NoDup {A} (k : string) (v : A) (d : list (string * A)) :
  NoDup d.*1 -> NoDup (dict_setitem k v d).*1.
Proof.
  intros Hd. rewrite dict_setitem_keys.
  destruct (decide (k ∈ d.*1)); [done|].
  apply NoDup_app. split; [done|]. split; [|apply NoDup_singleton].
  intros x Hx Hk. apply list_elem_of_singleton in Hk as ->. done.
Qed.

Lemma initialize_metering_points_snoc (subentries : list SubentryData)
    (subentry : SubentryData) :
  _initialize_metering_points (subentries ++ [subentry])
  = dict_setitem (sub_metering_point subentry) (sub_sensors subentry)
      (_initialize_metering_points subentries).
Proof. unfold _initialize_metering_points. by rewrite fold_left_app. Qed.

(** X17. The configured metering points hold each metering point once,
    whatever the subentries repeat, and a pair is among them exactly
    when its sensors are those of the last subentry of that metering
    point. *)
Theorem initialize_metering_points_last_wins (subentries : list SubentryData) :
  NoDup (_initialize_metering_points subentries).*1
  /\ forall mp sensors,
       (mp, sensors) ∈ _initialize_metering_points subentries
       <-> sub_sensors
             <$> last (filter (fun s => sub_metering_point s = mp) subentries)
           = Some sensors.
Proof.
  assert (Hnodup : NoDup (_initialize_metering_points subentries).*1).
  { induction subentries as [|x subentries IH] using rev_ind; [constructor|].
    rewrite initialize_metering_points_snoc. by apply dict_setitem_NoDup. }
  split; [done|]. intros mp sensors.
  rewrite (elem_of_list_to_map (M := gmap string)
             (_initialize_metering_points subentries) mp sensors Hnodup).
  clear Hnodup.
  induction subentries as [|x subentries IH] using rev_ind.
  - change (_initialize_metering_points []) with (@nil (string * list string)).
    rewrite list_to_map_nil, lookup_empty. split; intros [=].
  - rewrite initialize_metering_points_snoc, dict_setitem_to_map, filter_app.
    rewrite filter_cons, filter_nil.
    destruct (decide (sub_metering_point x = mp)) as [<-|Hne].
    + by rewrite lookup_insert_eq, last_snoc.
    + by rewrite lookup_insert_ne, app_nil_r.
Qed.

(** ** A tick over a fresh recorder *)

Section QuietTick.
Context {V : Type} `{PyFloat V}.
Variable env : Env V.
Variable rec : gmap string (list (StatisticsRow V)).

Lemma quiet_ret {A} (a : A) : quiet rec (mret a : M V A).
Proof. intros w Hw. split; [done|]. by exists []. Qed.

Lemma quiet_bind {A B} (m : M V A) (f : A -> M V B) :
  quiet rec m -> (forall a, quiet rec (f a)) -> quiet rec (m ≫= f).
Proof.
  intros Hm Hf w Hw. rewrite bind_run.
  destruct (Hm w Hw) as (Hr1 & evs1 & Ht1 & He1).
  destruct (m w) as [[a|e] w1]; simpl in *.
  - destruct (Hf a w1 Hr1) as (Hr2 & evs2 & Ht2 & He2).
    split; [done|]. exists (evs2 ++ evs1).
    split; [by rewrite Ht2, Ht1, app_assoc|by apply Forall_app].
  - split; [done|]. by exists evs1.
Qed.

Lemma quiet_log (r : ErrorRecord) : quiet rec (emit (LogError r)).
Proof.
  intros w Hw. split; [done|]. exists [LogError r]. split; [done|].
  by constructor.
Qed.

Lemma quiet_get_current_total (metering_point : string) (obis : ObisCode) :
  quiet rec (_get_current_total env metering_point obis).
Proof.
  intros w Hw. rewrite get_current_total_run. split; [done|].
  eexists [_]. split; [done|]. by constructor.
Qed.

Lemma quiet_update_statistics (metering_point : string) (obis : ObisCode) :
  (now env - 86400
   < baseline rec (_create_statistic_id metering_point (obis_value env obis)))%Z ->
  quiet rec (_update_statistics env metering_point obis).
Proof.
  intros Hfresh w Hw. unfold _update_statistics.
  rewrite bind_run, get_statistics_start_date_run, Hw.
  change (timedelta_days 1) with 86400%Z.
  apply Z.ltb_lt in Hfresh. rewrite Hfresh.
  split; [done|]. by exists [].
Qed.

Lemma quiet_process_sensors (metering_point : string)
    (selected_sensors : list string) (meter_data : MeterData V) :
  (forall s cfg, In s selected_sensors -> SENSOR_TYPES !! s = Some cfg ->
     (now env - 86400
      < baseline rec
          (_create_statistic_id metering_point (obis_value env (obis_code cfg))))%Z) ->
  quiet rec (process_sensors env metering_point selected_sensors meter_data).
Proof.
  revert meter_data.
  induction selected_sensors as [|s rest IH]; intros meter_data Hfresh.
  - apply quiet_ret.
  - rewrite process_sensors_cons.
    destruct (SENSOR_TYPES !! s) as [cfg|] eqn:Hs.
    + apply quiet_bind.
      { apply quiet_update_statistics. apply (Hfresh s); [by left|done]. }
      intros _. apply quiet_bind; [apply quiet_get_current_total|].
      intros total. apply IH. intros s' cfg' Hin. apply Hfresh. by right.
    + apply quiet_bind; [apply quiet_log|].
      intros _. apply IH. intros s' cfg' Hin. apply Hfresh. by right.
Qed.

Lemma quiet_update_all (items : list (string * list string))
    (data : gmap string (MeterData V)) :
  (forall statistic_id, configured_series env items statistic_id ->
     (now env - 86400 < baseline rec statistic_id)%Z) ->
  quiet rec (update_all env items data).
Proof.
  revert data. induction items as [|[mp sensors] rest IH]; intros data Hfresh.
  - apply quiet_ret.
  - rewrite update_all_cons. apply quiet_bind.
    + apply quiet_process_sensors. intros s cfg Hs Hcfg.
      apply Hfresh. exists mp, sensors, s, cfg.
      split; [left; reflexivity|]. split; [exact Hs|]. split; [exact Hcfg|reflexivity].
    + intros meter_data. apply IH. intros statistic_id
        (mp' & sensors' & s & cfg & Hin & Hrest).
      apply Hfresh. exists mp', sensors', s, cfg.
      split; [right; exact Hin|exact Hrest].
Qed.

End QuietTick.

Section QuietTickClaim.
Context {V : Type} `{PyFloat V}.
Variable env : Env V.

(** X18. When the last stored row of every configured series ends less
    than a day before now, the tick fetches no hourly data and imports
    nothing: it leaves the recorder as it is, and its only effects are
    the requests for the live totals and error messages. *)
Theorem fresh_tick_leaves_recorder (metering_points : list (string * list string))
    (w : World V) :
  (forall statistic_id, configured_series env metering_points statistic_id ->
     (now env - 86400 < baseline (recorder w) statistic_id)%Z) ->
  recorder (_async_update_data env metering_points w).2 = recorder w
  /\ exists evs,
       trace (_async_update_data env metering_points w).2 = evs ++ trace w
       /\ Forall live_or_log evs.
Proof.
  intros Hfresh. unfold _async_update_data, try_except.
  destruct (quiet_update_all env (recorder w) metering_points ∅ Hfresh w eq_refl)
    as (Hr & evs & Ht & He).
  destruct (update_all env metering_points ∅ w) as [[data|e] w1]; simpl in *.
  - split; [done|]. by exists evs.
  - destruct e as [[]| | |]; simpl; (split; [done|]);
      try (by exists evs).
    exists (LogError (AuthenticationError UnauthorizedException) :: evs).
    split; [by rewrite Ht|]. by constructor.
Qed.

End QuietTickClaim.

(** ** The live total and the cumulative sum *)

Section LiveTotal.
Import Scenario.

(** X7. The live total and the last cumulative sum of the same points can
    differ. Nothing is stored and ten consecutive hours are worth 0.1
    each: the engine adds them one after the other and its last sum is
    0.9999999999999999, while [sum], which compensates the rounding
    errors of its additions, gives 1.0 for the live total. *)
Theorem live_total_differs_from_last_sum :
  exists (out : list (StatisticData float)) (e : StatisticData float),
    _prepare_statistics active_id ten_tenths ∅ = Ok out
    /\ length out = 10%nat
    /\ last out = Some e
    /\ sd_sum e = 0x1.fffffffffffffp-1%float
    /\ py_sum ten_tenths = 1%float
    /\ (sd_sum e <? py_sum ten_tenths)%float = true.
Proof.
  eexists _, _. split; [vm_compute; reflexivity|].
  vm_compute. repeat split; reflexivity.
Qed.

End LiveTotal.

(** ** Instances of the further properties *)

Section ExtraWitnesses.
Import Scenario.

Lemma prepare_statistics_keeps_points_after_cutoff_witness :
  exists out,
    _prepare_statistics active_id [hour 0; hour 2; hour 3] stored_hour_0 = Ok out
    /\ Forall2 (fun (e : StatisticData float) (p : AggregatedMeteringValue float) =>
                  sd_start e = started_at p /\ sd_state e = value p)
         out
         (List.filter
            (fun p => match read_cutoff stored_hour_0 active_id with
                      | Some c => negb (started_at p <=? c)%Z
                      | None => true
                      end) [hour 0; hour 2; hour 3]).
Proof.
  apply (prepare_statistics_keeps_points_after_cutoff active_id
           [hour 0; hour 2; hour 3] stored_hour_0).
  vm_compute. discriminate.
Defined.

Lemma prepare_statistics_entries_increase_witness :
  StronglySorted
    (fun e f : StatisticData float => (sd_start e < sd_start f)%Z)
    [entry (t0 + 7200)%Z 1 6; entry (t0 + 10800)%Z 1 7]
  /\ forall c, read_cutoff stored_hour_0 active_id = Some c ->
       Forall (fun e : StatisticData float => (c < sd_start e)%Z)
         [entry (t0 + 7200)%Z 1 6; entry (t0 + 10800)%Z 1 7].
Proof.
  apply (prepare_statistics_entries_increase active_id
           [hour 0; hour 2; hour 3] stored_hour_0).
  - repeat constructor; vm_compute; reflexivity.
  - vm_compute. reflexivity.
Defined.

Lemma prepare_statistics_in_two_parts_witness :
  exists out1,
    _prepare_statistics active_id [hour 0; hour 2] stored_hour_0 = Ok out1
    /\ _prepare_statistics active_id ([hour 0; hour 2] ++ [hour 3]) stored_hour_0
       = Ok (out1
               ++ prepare_loop (read_cutoff stored_hour_0 active_id)
                    (default (read_sum stored_hour_0 active_id)
                       (sd_sum <$> last out1))
                    [hour 3]).
Proof.
  apply (prepare_statistics_in_two_parts active_id [hour 0; hour 2] [hour 3]
           stored_hour_0).
  vm_compute. discriminate.
Defined.

Lemma stale_fetch_stores_nothing_witness :
  _process_and_store_statistics active_id "LU000001" ELEC_CONSUMPTION_ACTIVE
    [hour 0; hour 1] fresh_world
  = (Ok tt, fresh_world).
Proof.
  apply (stale_fetch_stores_nothing active_id "LU000001"
           ELEC_CONSUMPTION_ACTIVE [hour 0; hour 1] fresh_world
           (row t0 1.5) []).
  - vm_compute. reflexivity.
  - repeat constructor; vm_compute; discriminate.
Defined.

Lemma tick_keeps_other_series_witness :
  recorder (_async_update_data healthy two_channels
              {| recorder := {[ "sensor:other" := [row t0 9] ]}; trace := [] |}).2
    !! "sensor:other"
  = Some [row t0 9].
Proof.
  rewrite (tick_keeps_other_series healthy two_channels "sensor:other").
  - reflexivity.
  - intros (mp & sensors & s & cfg & Hmp & Hs & Hcfg & Hid).
    destruct Hmp as [[= <- <-]|[]].
    destruct Hs as [<-|[<-|[]]]; vm_compute in Hcfg;
      injection Hcfg as <-; vm_compute in Hid; discriminate.
Defined.

Lemma tick_result_map_keys_witness :
  dom healthy_result = list_to_set two_channels.*1
  /\ forall mp md, healthy_result !! mp = Some md ->
       exists sensors, In (mp, sensors) two_channels /\ dom md = known_codes sensors.
Proof.
  apply (tick_result_map_keys healthy two_channels healthy_result empty_world).
  vm_compute. reflexivity.
Defined.

Lemma fresh_tick_leaves_recorder_witness :
  recorder (_async_update_data healthy two_channels fresh_world).2
  = recorder fresh_world
  /\ exists evs,
       trace (_async_update_data healthy two_channels fresh_world).2
       = evs ++ trace fresh_world
       /\ Forall live_or_log evs.
Proof.
  apply (fresh_tick_leaves_recorder healthy two_channels fresh_world).
  intros statistic_id (mp & sensors & s & cfg & Hmp & Hs & Hcfg & ->).
  destruct Hmp as [[= <- <-]|[]].
  destruct Hs as [<-|[<-|[]]]; vm_compute in Hcfg;
    injection Hcfg as <-; vm_compute; reflexivity.
Defined.

End ExtraWitnesses.
